(** * enkorde: the training driver [main_train.py]

    A shallow embedding of [main()] of [main_train.py]: the merge of the
    fetched configuration with the command-line arguments, the two
    dispatches by name (model, data module), the construction of the trainer,
    the call of [trainer.fit] and the gated save/upload/cleanup sequence.

    The script is glue code: everything it does is a call into a
    collaborator (wandb, torch, pytorch-lightning, the enkorde package).  A
    run is therefore modelled as the sequence of collaborator calls it makes
    (its trace) together with the way it ends (normally, or with a Python
    exception).  The answers of the collaborators are inputs of the model
    (record [World]); the constants of the enkorde package the script reads
    ([TransformerTorch.name], [ROOT_DIR], ...) are inputs as well (record
    [Lib]). *)

From Stdlib Require Import ZArith Floats Ascii String.
From stdpp Require Import base gmap strings list fin_maps.

Local Open Scope string_scope.
Local Open Scope list_scope.
Local Open Scope Z_scope.

(** ** Python values held by the configuration *)

(** The configuration is a [dict] from strings to scalars: what a YAML
    document and [argparse] produce. *)
Inductive value :=
| VStr (s : string)
| VInt (z : Z)
| VBool (b : bool)
| VFloat (f : float)
| VNone.

Definition type_name (v : value) : string :=
  match v with
  | VStr _ => "str"
  | VInt _ => "int"
  | VBool _ => "bool"
  | VFloat _ => "float"
  | VNone => "NoneType"
  end.

(** [bool(v)]: Python truthiness. *)
Definition truthy (v : value) : bool :=
  match v with
  | VStr s => negb (String.eqb s EmptyString)
  | VInt z => negb (z =? 0)
  | VBool b => b
  | VFloat f => negb (PrimFloat.eqb f 0%float)
  | VNone => false
  end.

(** The integer a float denotes, when it denotes one (a finite float with no
    fractional part); Python compares an [int] and a [float] by value. *)
Definition float_to_Z (f : float) : option Z :=
  match Prim2SF f with
  | S754_zero _ => Some 0
  | S754_finite s m e =>
      let v := if s then Z.neg m else Z.pos m in
      if 0 <=? e then Some (v * 2 ^ e)
      else if v mod 2 ^ (- e) =? 0 then Some (v / 2 ^ (- e)) else None
  | S754_infinity _ | S754_nan => None
  end.

Definition int_eq_float (z : Z) (f : float) : bool :=
  match float_to_Z f with
  | Some z' => z =? z'
  | None => false
  end.

(** [a == b] on scalars; [bool] is a subclass of [int]. *)
Definition py_eq (a b : value) : bool :=
  match a, b with
  | VStr s, VStr t => String.eqb s t
  | VNone, VNone => true
  | VInt x, VInt y => x =? y
  | VInt x, VBool y => x =? Z.b2z y
  | VBool x, VInt y => Z.b2z x =? y
  | VBool x, VBool y => Bool.eqb x y
  | VFloat f, VFloat g => PrimFloat.eqb f g
  | VInt x, VFloat g => int_eq_float x g
  | VBool x, VFloat g => int_eq_float (Z.b2z x) g
  | VFloat f, VInt y => int_eq_float y f
  | VFloat f, VBool y => int_eq_float (Z.b2z y) f
  | _, _ => false
  end.

(** An f-string made of a literal followed by one replacement field, kept
    unrendered: the text is the literal followed by [str] of the value. *)
Record fstring := FString { fs_literal : string; fs_field : value }.

Inductive exn :=
| KeyError (key : string)
| ValueError (msg : fstring)
| TypeError (msg : string).

Inductive result (A : Type) :=
| Ok (a : A)
| Raise (e : exn).
Arguments Ok {A} a.
Arguments Raise {A} e.

(** [v - 1] *)
Definition py_sub1 (v : value) : result value :=
  match v with
  | VInt z => Ok (VInt (z - 1))
  | VBool b => Ok (VInt (Z.b2z b - 1))
  | VFloat f => Ok (VFloat (f - 1)%float)
  | VStr _ | VNone =>
      Raise (TypeError ("unsupported operand type(s) for -: '" +:+ type_name v
                        +:+ "' and 'int'"))
  end.

(** ** Dictionaries *)

(** [d.update(other)], [other] given by its items in iteration order. *)
Definition dict_update {V} (d : gmap string V) (other : list (string * V))
  : gmap string V :=
  fold_left (fun acc kv => <[kv.1 := kv.2]> acc) other d.

(** ** Paths *)

Fixpoint ends_with_sep (s : string) : bool :=
  match s with
  | EmptyString => false
  | String c EmptyString => Ascii.eqb c "/"%char
  | String _ s' => ends_with_sep s'
  end.

Definition starts_with_sep (s : string) : bool :=
  match s with
  | String c _ => Ascii.eqb c "/"%char
  | EmptyString => false
  end.

(** [os.path.join(a, b)] of [posixpath]. *)
Definition os_path_join (a b : string) : string :=
  if starts_with_sep b then b
  else if String.eqb a EmptyString || ends_with_sep a then a +:+ b
  else a +:+ "/" +:+ b.

(** ** Command-line arguments *)

(** The namespace [parse_args()] returns: one attribute per
    [add_argument], with the type [argparse] converts it to. *)
Record Args := {
  args_entity : string;
  args_model : string;
  args_ver : string;
  args_num_workers : Z;
  args_log_every_n_steps : Z;
  args_fast_dev_run : bool;
  args_overfit_batches : Z;
  args_check_val_every_n_epoch : Z;
}.

(** The namespace of a command line that gives the positional [entity] only:
    every option at its [default]. *)
Definition default_args (entity : string) : Args := {|
  args_entity := entity;
  args_model := "transformer_torch";
  args_ver := "overfit";
  args_num_workers := 4;
  args_log_every_n_steps := 1;
  args_fast_dev_run := false;
  args_overfit_batches := 0;
  args_check_val_every_n_epoch := 1;
|}.

(** [vars(args)], by its items. *)
Definition vars (a : Args) : list (string * value) :=
  [ ("entity", VStr (args_entity a));
    ("model", VStr (args_model a));
    ("ver", VStr (args_ver a));
    ("num_workers", VInt (args_num_workers a));
    ("log_every_n_steps", VInt (args_log_every_n_steps a));
    ("fast_dev_run", VBool (args_fast_dev_run a));
    ("overfit_batches", VInt (args_overfit_batches a));
    ("check_val_every_n_epoch", VInt (args_check_val_every_n_epoch a)) ].

Definition cli_keys : list string :=
  [ "entity"; "model"; "ver"; "num_workers"; "log_every_n_steps";
    "fast_dev_run"; "overfit_batches"; "check_val_every_n_epoch" ].

(** ** Collaborators *)

(** The constants of the enkorde package that [main] reads: the [name]
    attribute of the four classes, and [ROOT_DIR] (as [os.fspath] gives it). *)
Record Lib := {
  TransformerTorch_name : string;
  TransformerScratch_name : string;
  Kor2EngDataModule_name : string;
  Kor2EngSmallDataModule_name : string;
  ROOT_DIR : string;
}.

(** What [main] reads of a tokenizer. *)
Class Tokenizer (T : Type) := {
  get_vocab_size : T → Z;
  pad_token_id : T → Z;
}.

(** [torch.device(kind)] *)
Inductive device := torch_device (kind : string).

(** A positional argument of a model constructor. *)
Inductive arg :=
| AVal (v : value)
| ADevice (d : device).

Inductive model_class := TransformerTorch | TransformerScratch.

(** A model, by the constructor call that made it. *)
Record model := { model_cls : model_class; model_args : list arg }.

Inductive datamodule_class := Kor2EngDataModule | Kor2EngSmallDataModule.

Record datamodule (T : Type) := {
  dm_cls : datamodule_class;
  dm_config : gmap string value;
  dm_tokenizer : T;
}.
Arguments dm_cls {T} _.
Arguments dm_config {T} _.
Arguments dm_tokenizer {T} _.

Record wandb_logger := WandbLogger { log_model : bool }.
Record lr_monitor := LearningRateMonitor { logging_interval : string }.

(** A trainer, by the keyword arguments of [Trainer(...)]. *)
Record trainer := {
  tr_fast_dev_run : value;
  tr_check_val_every_n_epoch : value;
  tr_overfit_batches : value;
  tr_max_epochs : value;
  tr_log_every_n_steps : value;
  tr_gpus : Z;
  tr_callbacks : list lr_monitor;
  tr_enable_checkpointing : bool;
  tr_logger : wandb_logger;
}.

(** A [wandb.Artifact]: its constructor arguments and the files added. *)
Record artifact := {
  art_name : value;
  art_type : string;
  art_metadata : gmap string value;
  art_files : list string;
}.

(** The answers of the collaborators in one run, for a run in which every
    call into a collaborator returns. *)
Record World (T : Type) := {
  fetch_config : gmap string (gmap string (gmap string (gmap string value)));
  fetch_tokenizer : value → value → T;
  cuda_is_available : bool;
  cuda_device_count : Z;
  (** [trainer.current_epoch], read after [fit] has returned *)
  current_epoch : Z;
}.
Arguments fetch_config {T} _.
Arguments fetch_tokenizer {T} _ _ _.
Arguments cuda_is_available {T} _.
Arguments cuda_device_count {T} _.
Arguments current_epoch {T} _.

(** ** Runs *)

(** The calls into collaborators, in the order [main] makes them. *)
Inductive event (T : Type) :=
| EFetchConfig
| EWandbInit (entity : value) (project : string) (config : gmap string value)
| EFetchTokenizer (entity name : value)
| ECudaIsAvailable
| ENewModel (m : model)
| ENewDataModule (d : datamodule T)
| ENewWandbLogger (l : wandb_logger)
| ENewLearningRateMonitor (c : lr_monitor)
| ECudaDeviceCount
| ENewTrainer (t : trainer)
| EFit (t : trainer) (m : model) (d : datamodule T)
| ESaveCheckpoint (t : trainer) (path : string)
| ENewArtifact (a : artifact)
| EAddFile (a : artifact) (path : string)
| ELogArtifact (a : artifact) (aliases : list value)
| ERemove (path : string)
| EWandbExit (exc : option exn).
Arguments EFetchConfig {T}.
Arguments EWandbInit {T} _ _ _.
Arguments EFetchTokenizer {T} _ _.
Arguments ECudaIsAvailable {T}.
Arguments ENewModel {T} _.
Arguments ENewDataModule {T} _.
Arguments ENewWandbLogger {T} _.
Arguments ENewLearningRateMonitor {T} _.
Arguments ECudaDeviceCount {T}.
Arguments ENewTrainer {T} _.
Arguments EFit {T} _ _ _.
Arguments ESaveCheckpoint {T} _ _.
Arguments ENewArtifact {T} _.
Arguments EAddFile {T} _ _.
Arguments ELogArtifact {T} _ _.
Arguments ERemove {T} _.
Arguments EWandbExit {T} _.

(** A computation: the calls it made and how it ended. *)
Record M (T A : Type) := Run { trace : list (event T); outcome : result A }.
Arguments Run {T A} _ _.
Arguments trace {T A} _.
Arguments outcome {T A} _.

Definition ret {T A} (a : A) : M T A := Run [] (Ok a).
Definition raise {T A} (e : exn) : M T A := Run [] (Raise e).
Definition emit {T} (e : event T) : M T unit := Run [e] (Ok tt).
Definition lift {T A} (r : result A) : M T A := Run [] r.

(** [m] and then [k]: an exception of [m] ends the computation. *)
Definition bind {T A B} (m : M T A) (k : A → M T B) : M T B :=
  match m with
  | Run tr (Ok a) => match k a with Run tr' o => Run (tr ++ tr') o end
  | Run tr (Raise e) => Run tr (Raise e)
  end.

#[global] Instance M_ret {T} : MRet (M T) := λ A, ret.
#[global] Instance M_bind {T} : MBind (M T) := λ A B k m, bind m k.

(** [d[k]] *)
Definition getitem {T V} (d : gmap string V) (k : string) : M T V :=
  match d !! k with
  | Some v => ret v
  | None => raise (KeyError k)
  end.

(** [with wandb.init(entity=..., project=..., config=...) as run: body]:
    the run is opened, the body runs, the run is closed with the exception
    of the body if it raised one, and the exception goes on. *)
Definition exception_of {A} (r : result A) : option exn :=
  match r with
  | Ok _ => None
  | Raise e => Some e
  end.

Definition with_wandb_init {T A} (entity : value) (project : string)
    (config : gmap string value) (body : M T A) : M T A :=
  Run ([EWandbInit entity project config] ++ trace body
       ++ [EWandbExit (exception_of (outcome body))])
      (outcome body).

(** ** The script *)

Section Main.
Context {T : Type} `{!Tokenizer T} (lib : Lib) (w : World T).

(** [config = fetch_config()['train'][args.model][args.ver]] followed by
    [config.update(vars(args))] *)
Definition merged_config (a : Args) : M T (gmap string value) :=
  emit EFetchConfig;;
  train ← getitem (fetch_config w) "train";
  by_ver ← getitem train (args_model a);
  config ← getitem by_ver (args_ver a);
  mret (dict_update config (vars a)).

(** [torch.device("cuda") if torch.cuda.is_available() else
    torch.device("cpu")] *)
Definition choose_device : M T device :=
  emit ECudaIsAvailable;;
  mret (if cuda_is_available w then torch_device "cuda"
        else torch_device "cpu").

Definition new_model (cls : model_class) (args : list arg) : M T model :=
  let m := {| model_cls := cls; model_args := args |} in
  emit (ENewModel m);; mret m.

(** The choice of the implementation of the transformer. *)
Definition choose_model (config : gmap string value) (tokenizer : T)
  : M T model :=
  name ← getitem config "model";
  if py_eq name (VStr (TransformerTorch_name lib)) then
    device ← choose_device;
    hidden_size ← getitem config "hidden_size";
    ffn_size ← getitem config "ffn_size";
    let vocab_size := VInt (get_vocab_size tokenizer) in
    max_length ← getitem config "max_length";
    let pad := VInt (pad_token_id tokenizer) in
    heads ← getitem config "heads";
    depth ← getitem config "depth";
    dropout ← getitem config "dropout";
    lr ← getitem config "lr";
    new_model TransformerTorch
      [AVal hidden_size; AVal ffn_size; AVal vocab_size; AVal max_length;
       AVal pad; AVal heads; AVal depth; AVal dropout; AVal lr;
       ADevice device]
  else
    name ← getitem config "model";
    if py_eq name (VStr (TransformerScratch_name lib)) then
      hidden_size ← getitem config "hidden_size";
      ffn_size ← getitem config "ffn_size";
      let vocab_size := VInt (get_vocab_size tokenizer) in
      max_length ← getitem config "max_length";
      let pad := VInt (pad_token_id tokenizer) in
      heads ← getitem config "heads";
      depth ← getitem config "depth";
      dropout ← getitem config "dropout";
      lr ← getitem config "lr";
      new_model TransformerScratch
        [AVal hidden_size; AVal ffn_size; AVal vocab_size; AVal max_length;
         AVal pad; AVal heads; AVal depth; AVal dropout; AVal lr]
    else
      name ← getitem config "model";
      raise (ValueError (FString "Invalid model: " name)).

Definition new_datamodule (cls : datamodule_class)
    (config : gmap string value) (tokenizer : T) : M T (datamodule T) :=
  let d := {| dm_cls := cls; dm_config := config;
              dm_tokenizer := tokenizer |} in
  emit (ENewDataModule d);; mret d.

(** The choice of the data. *)
Definition choose_data (config : gmap string value) (tokenizer : T)
  : M T (datamodule T) :=
  name ← getitem config "data";
  if py_eq name (VStr (Kor2EngDataModule_name lib)) then
    new_datamodule Kor2EngDataModule config tokenizer
  else
    name ← getitem config "data";
    if py_eq name (VStr (Kor2EngSmallDataModule_name lib)) then
      new_datamodule Kor2EngSmallDataModule config tokenizer
    else
      name ← getitem config "data";
      raise (ValueError (FString "Invalid data: " name)).

(** The logger, the learning-rate monitor and the trainer. *)
Definition make_trainer (config : gmap string value) : M T trainer :=
  let logger := WandbLogger false in
  emit (ENewWandbLogger logger);;
  let monitor := LearningRateMonitor "epoch" in
  emit (ENewLearningRateMonitor monitor);;
  fast_dev_run ← getitem config "fast_dev_run";
  check_val_every_n_epoch ← getitem config "check_val_every_n_epoch";
  overfit_batches ← getitem config "overfit_batches";
  max_epochs ← getitem config "max_epochs";
  log_every_n_steps ← getitem config "log_every_n_steps";
  emit ECudaDeviceCount;;
  let t := {| tr_fast_dev_run := fast_dev_run;
              tr_check_val_every_n_epoch := check_val_every_n_epoch;
              tr_overfit_batches := overfit_batches;
              tr_max_epochs := max_epochs;
              tr_log_every_n_steps := log_every_n_steps;
              tr_gpus := cuda_device_count w;
              tr_callbacks := [monitor];
              tr_enable_checkpointing := false;
              tr_logger := logger |} in
  emit (ENewTrainer t);; mret t.

(** [not config['fast_dev_run'] and
     trainer.current_epoch == config['max_epochs'] - 1] *)
Definition properly_done (config : gmap string value) : M T bool :=
  fast_dev_run ← getitem config "fast_dev_run";
  if truthy fast_dev_run then mret false
  else
    max_epochs ← getitem config "max_epochs";
    last ← lift (py_sub1 max_epochs);
    mret (py_eq (VInt (current_epoch w)) last).

Definition add_file (a : artifact) (path : string) : artifact :=
  {| art_name := art_name a; art_type := art_type a;
     art_metadata := art_metadata a;
     art_files := art_files a ++ [path] |}.

(** The body of the final [if]. *)
Definition save_and_upload (config : gmap string value) (t : trainer)
  : M T unit :=
  let ckpt_path := os_path_join (ROOT_DIR lib) "transformer.ckpt" in
  emit (ESaveCheckpoint t ckpt_path);;
  name ← getitem config "model";
  let artifact := {| art_name := name; art_type := "model";
                     art_metadata := config; art_files := [] |} in
  emit (ENewArtifact artifact);;
  emit (EAddFile artifact ckpt_path);;
  let artifact := add_file artifact ckpt_path in
  ver ← getitem config "ver";
  emit (ELogArtifact artifact [VStr "latest"; ver]);;
  emit (ERemove ckpt_path).

(** The final [if] statement: save only if the training is properly
    done. *)
Definition save_if_done (config : gmap string value) (t : trainer)
  : M T unit :=
  ok ← properly_done config;
  if ok : bool then save_and_upload config t else mret tt.

(** The body of the [with] block. *)
Definition session (config : gmap string value) : M T unit :=
  entity ← getitem config "entity";
  name ← getitem config "tokenizer";
  emit (EFetchTokenizer entity name);;
  let tokenizer := fetch_tokenizer w entity name in
  transformer ← choose_model config tokenizer;
  datamodule ← choose_data config tokenizer;
  t ← make_trainer config;
  emit (EFit t transformer datamodule);;
  save_if_done config t.

Definition main (a : Args) : M T unit :=
  config ← merged_config a;
  entity ← getitem config "entity";
  with_wandb_init entity "enkorde" config (session config).

End Main.

(** ** Observations of a run *)

Definition is_fit {T} (e : event T) : bool :=
  match e with
  | EFit _ _ _ => true
  | _ => false
  end.

(** The events of the save/upload/cleanup sequence. *)
Definition is_upload {T} (e : event T) : bool :=
  match e with
  | ESaveCheckpoint _ _ | ENewArtifact _ | EAddFile _ _ | ELogArtifact _ _
  | ERemove _ => true
  | _ => false
  end.

(** The classes of the models a run constructed, in order. *)
Definition model_classes {T} (tr : list (event T)) : list model_class :=
  omap (λ e, match e with ENewModel m => Some (model_cls m) | _ => None end)
       tr.

(** The classes of the data modules a run constructed, in order. *)
Definition datamodule_classes {T} (tr : list (event T))
  : list datamodule_class :=
  omap (λ e, match e with ENewDataModule d => Some (dm_cls d) | _ => None end)
       tr.

(** Whether a run saved, uploaded or removed anything. *)
Definition uploaded {T} (tr : list (event T)) : bool := existsb is_upload tr.

(** A trainer and an event, without the number of CUDA devices the trainer
    was given. *)
Definition forget_gpus (t : trainer) : trainer :=
  {| tr_fast_dev_run := tr_fast_dev_run t;
     tr_check_val_every_n_epoch := tr_check_val_every_n_epoch t;
     tr_overfit_batches := tr_overfit_batches t;
     tr_max_epochs := tr_max_epochs t;
     tr_log_every_n_steps := tr_log_every_n_steps t;
     tr_gpus := 0;
     tr_callbacks := tr_callbacks t;
     tr_enable_checkpointing := tr_enable_checkpointing t;
     tr_logger := tr_logger t |}.

Definition forget_gpus_event {T} (e : event T) : event T :=
  match e with
  | ENewTrainer t => ENewTrainer (forget_gpus t)
  | EFit t m d => EFit (forget_gpus t) m d
  | ESaveCheckpoint t path => ESaveCheckpoint (forget_gpus t) path
  | _ => e
  end.

(** The save/upload/cleanup sequence, for the trainer [t], the artifact
    name [name] and the version alias [ver]. *)
Definition upload_sequence {T} (lib : Lib) (config : gmap string value)
    (t : trainer) (name ver : value) : list (event T) :=
  let ckpt_path := os_path_join (ROOT_DIR lib) "transformer.ckpt" in
  let artifact := {| art_name := name; art_type := "model";
                     art_metadata := config; art_files := [] |} in
  [ ESaveCheckpoint t ckpt_path;
    ENewArtifact artifact;
    EAddFile artifact ckpt_path;
    ELogArtifact (add_file artifact ckpt_path) [VStr "latest"; ver];
    ERemove ckpt_path ].

(** The run-completion gate, on the configuration and the epoch the trainer
    stopped at: [fast_dev_run] is false and [epoch] equals
    [max_epochs - 1]. *)
Definition gate_holds (config : gmap string value) (epoch : Z) : Prop :=
  config !! "fast_dev_run" = Some (VBool false)
  ∧ ∃ max_epochs last,
      config !! "max_epochs" = Some max_epochs
      ∧ py_sub1 max_epochs = Ok last
      ∧ py_eq (VInt epoch) last = true.

(** ** The ways a run can go *)

Section Cases.
Context {T : Type} `{!Tokenizer T} (lib : Lib) (w : World T).

(** What [main] does before the tokenizer is fetched. *)
Definition opening (a : Args) (config : gmap string value)
  : list (event T) :=
  [EFetchConfig; EWandbInit (VStr (args_entity a)) "enkorde" config].

(** The arguments the two model constructors share: (hidden_size, ffn_size,
    vocabulary size, max_length, pad_token_id, heads, depth, dropout, lr),
    when the configuration has them. *)
Definition common_arguments (config : gmap string value) (tok : T)
  : option (list arg) :=
  hidden_size ← config !! "hidden_size";
  ffn_size ← config !! "ffn_size";
  max_length ← config !! "max_length";
  heads ← config !! "heads";
  depth ← config !! "depth";
  dropout ← config !! "dropout";
  lr ← config !! "lr";
  Some [AVal hidden_size; AVal ffn_size; AVal (VInt (get_vocab_size tok));
        AVal max_length; AVal (VInt (pad_token_id tok)); AVal heads;
        AVal depth; AVal dropout; AVal lr].

(** The device of the machine, as [choose_device] names it. *)
Definition machine_device : device :=
  if cuda_is_available w then torch_device "cuda" else torch_device "cpu".

(** The questions and calls by which [choose_model] made the model [m]
    from [config] and the tokenizer [tok]. *)
Definition built_model (config : gmap string value) (tok : T)
    (cuda : list (event T)) (m : model) : Prop :=
  ∃ hidden_size ffn_size max_length heads depth dropout lr,
    let common :=
      [AVal hidden_size; AVal ffn_size; AVal (VInt (get_vocab_size tok));
       AVal max_length; AVal (VInt (pad_token_id tok)); AVal heads;
       AVal depth; AVal dropout; AVal lr] in
    let device := if cuda_is_available w then torch_device "cuda"
                  else torch_device "cpu" in
    (m = {| model_cls := TransformerTorch;
            model_args := common ++ [ADevice device] |}
     ∧ cuda = [ECudaIsAvailable])
    ∨ (m = {| model_cls := TransformerScratch; model_args := common |}
       ∧ cuda = []).

(** What [make_trainer] calls before it needs [max_epochs]. *)
Definition logging : list (event T) :=
  [ENewWandbLogger (WandbLogger false);
   ENewLearningRateMonitor (LearningRateMonitor "epoch")].

(** The runs of [main], by the step that ended them. *)
Inductive main_cases (a : Args) : Prop :=
| no_config k :
    outcome (merged_config w a) = Raise (KeyError k) →
    main lib w a = Run [EFetchConfig] (Raise (KeyError k)) →
    main_cases a
| no_tokenizer config :
    outcome (merged_config w a) = Ok config →
    config !! "tokenizer" = None →
    main lib w a
    = Run (opening a config ++ [EWandbExit (Some (KeyError "tokenizer"))])
          (Raise (KeyError "tokenizer")) →
    main_cases a
| no_model config name cuda e :
    outcome (merged_config w a) = Ok config →
    config !! "tokenizer" = Some name →
    cuda = [] ∨ cuda = [ECudaIsAvailable] →
    (∀ msg, e = ValueError msg → fs_literal msg = "Invalid model: ") →
    main lib w a
    = Run (opening a config
           ++ [EFetchTokenizer (VStr (args_entity a)) name] ++ cuda
           ++ [EWandbExit (Some e)])
          (Raise e) →
    main_cases a
| no_data config name cuda m e :
    outcome (merged_config w a) = Ok config →
    config !! "tokenizer" = Some name →
    built_model config (fetch_tokenizer w (VStr (args_entity a)) name)
      cuda m →
    (∀ msg, e = ValueError msg → fs_literal msg = "Invalid data: ") →
    main lib w a
    = Run (opening a config
           ++ [EFetchTokenizer (VStr (args_entity a)) name] ++ cuda
           ++ [ENewModel m; EWandbExit (Some e)])
          (Raise e) →
    main_cases a
| no_trainer config name cuda m d k :
    outcome (merged_config w a) = Ok config →
    config !! "tokenizer" = Some name →
    built_model config (fetch_tokenizer w (VStr (args_entity a)) name)
      cuda m →
    dm_config d = config →
    dm_tokenizer d = fetch_tokenizer w (VStr (args_entity a)) name →
    main lib w a
    = Run (opening a config
           ++ [EFetchTokenizer (VStr (args_entity a)) name] ++ cuda
           ++ [ENewModel m; ENewDataModule d] ++ logging
           ++ [EWandbExit (Some (KeyError k))])
          (Raise (KeyError k)) →
    main_cases a
| trained_not_done config name cuda m d t o :
    outcome (merged_config w a) = Ok config →
    config !! "tokenizer" = Some name →
    built_model config (fetch_tokenizer w (VStr (args_entity a)) name)
      cuda m →
    dm_config d = config →
    dm_tokenizer d = fetch_tokenizer w (VStr (args_entity a)) name →
    ¬ gate_holds config (current_epoch w) →
    (∀ msg, o ≠ Raise (ValueError msg)) →
    main lib w a
    = Run (opening a config
           ++ [EFetchTokenizer (VStr (args_entity a)) name] ++ cuda
           ++ [ENewModel m; ENewDataModule d] ++ logging
           ++ [ECudaDeviceCount; ENewTrainer t; EFit t m d;
               EWandbExit (exception_of o)])
          o →
    main_cases a
| trained_done config name cuda m d t :
    outcome (merged_config w a) = Ok config →
    config !! "tokenizer" = Some name →
    built_model config (fetch_tokenizer w (VStr (args_entity a)) name)
      cuda m →
    dm_config d = config →
    dm_tokenizer d = fetch_tokenizer w (VStr (args_entity a)) name →
    gate_holds config (current_epoch w) →
    main lib w a
    = Run (opening a config
           ++ [EFetchTokenizer (VStr (args_entity a)) name] ++ cuda
           ++ [ENewModel m; ENewDataModule d] ++ logging
           ++ [ECudaDeviceCount; ENewTrainer t; EFit t m d]
           ++ upload_sequence lib config t (VStr (args_model a))
                (VStr (args_ver a))
           ++ [EWandbExit None])
          (Ok tt) →
    main_cases a.

End Cases.

(** ** A sample installation *)

Module Sample.

(** A tokenizer reduced to its vocabulary and the id of its padding
    token. *)
Record tokenizer := { vocab : list string; pad : Z }.

#[global] Instance tokenizer_Tokenizer : Tokenizer tokenizer := {|
  get_vocab_size t := Z.of_nat (length (vocab t));
  pad_token_id t := pad t;
|}.

Definition lib : Lib := {|
  TransformerTorch_name := "transformer_torch";
  TransformerScratch_name := "transformer_scratch";
  Kor2EngDataModule_name := "kor2eng";
  Kor2EngSmallDataModule_name := "kor2eng_small";
  ROOT_DIR := "/home/user/enkorde";
|}.

Definition overfit : gmap string value :=
  list_to_map
    [ ("tokenizer", VStr "wp"); ("data", VStr "kor2eng_small");
      ("hidden_size", VInt 512); ("ffn_size", VInt 512);
      ("max_length", VInt 145); ("heads", VInt 8); ("depth", VInt 3);
      ("dropout", VFloat 0.0%float); ("lr", VFloat 0.0009765625%float);
      ("max_epochs", VInt 10); ("batch_size", VInt 8);
      ("num_workers", VInt 0); ("seed", VInt 410) ].

(** An entry that names a data module that does not exist. *)
Definition jejueo : gmap string value := <["data" := VStr "jejueo"]> overfit.

Definition fetched
  : gmap string (gmap string (gmap string (gmap string value))) :=
  {[ "train" := {[ "transformer_torch" := {[ "overfit" := overfit ]};
                   "transformer_scratch" := {[ "overfit" := overfit;
                                               "jejueo" := jejueo ]} ]} ]}.

Definition wp : tokenizer := {| vocab := ["[PAD]"; "[UNK]"; "a"]; pad := 0 |}.

(** The merged configuration of the sample installation, for the
    command-line arguments [a]. *)
Definition config (a : Args) : gmap string value :=
  dict_update overfit (vars a).

(** What the sample installation constructs on a machine without CUDA, when
    started with the positional argument alone. *)
Definition torch_model : model := {|
  model_cls := TransformerTorch;
  model_args := [AVal (VInt 512); AVal (VInt 512); AVal (VInt 3);
                 AVal (VInt 145); AVal (VInt 0); AVal (VInt 8);
                 AVal (VInt 3); AVal (VFloat 0.0%float);
                 AVal (VFloat 0.0009765625%float);
                 ADevice (torch_device "cpu")];
|}.

Definition small_data : datamodule tokenizer := {|
  dm_cls := Kor2EngSmallDataModule;
  dm_config := config (default_args "me");
  dm_tokenizer := wp;
|}.

Definition the_trainer : trainer := {|
  tr_fast_dev_run := VBool false;
  tr_check_val_every_n_epoch := VInt 1;
  tr_overfit_batches := VInt 0;
  tr_max_epochs := VInt 10;
  tr_log_every_n_steps := VInt 1;
  tr_gpus := 0;
  tr_callbacks := [LearningRateMonitor "epoch"];
  tr_enable_checkpointing := false;
  tr_logger := WandbLogger false;
|}.

(** Command lines: a fast development run; an entry whose data is
    unknown. *)
Definition fast_args : Args := {|
  args_entity := "me";
  args_model := "transformer_torch";
  args_ver := "overfit";
  args_num_workers := 4;
  args_log_every_n_steps := 1;
  args_fast_dev_run := true;
  args_overfit_batches := 0;
  args_check_val_every_n_epoch := 1;
|}.

Definition jejueo_args : Args := {|
  args_entity := "me";
  args_model := "transformer_scratch";
  args_ver := "jejueo";
  args_num_workers := 4;
  args_log_every_n_steps := 1;
  args_fast_dev_run := false;
  args_overfit_batches := 0;
  args_check_val_every_n_epoch := 1;
|}.

(** A machine with [gpus] CUDA devices, on which training stopped with
    [current_epoch = epoch]. *)
Definition world (gpus epoch : Z) : World tokenizer := {|
  fetch_config := fetched;
  fetch_tokenizer _ _ := wp;
  cuda_is_available := 0 <? gpus;
  cuda_device_count := gpus;
  current_epoch := epoch;
|}.

End Sample.

(** ** More observations *)

(** The hyperparameters the model constructors read from the
    configuration, in the order they are read. *)
Definition hyper_keys : list string :=
  ["hidden_size"; "ffn_size"; "max_length"; "heads"; "depth"; "dropout";
   "lr"].

(** The first of [keys] the dictionary does not have. *)
Fixpoint first_missing {V} (d : gmap string V) (keys : list string)
  : option string :=
  match keys with
  | [] => None
  | k :: keys =>
      match d !! k with
      | Some _ => first_missing d keys
      | None => Some k
      end
  end.

(** The opening and the closing of the wandb run. *)
Definition is_wandb {T} (e : event T) : bool :=
  match e with
  | EWandbInit _ _ _ | EWandbExit _ => true
  | _ => false
  end.

Definition is_new_model {T} (e : event T) : bool :=
  match e with
  | ENewModel _ => true
  | _ => false
  end.

Definition is_new_datamodule {T} (e : event T) : bool :=
  match e with
  | ENewDataModule _ => true
  | _ => false
  end.

Definition is_new_trainer {T} (e : event T) : bool :=
  match e with
  | ENewTrainer _ => true
  | _ => false
  end.

Definition is_fetch_tokenizer {T} (e : event T) : bool :=
  match e with
  | EFetchTokenizer _ _ => true
  | _ => false
  end.

(** How many events of a trace are of a kind. *)
Definition count {T} (kind : event T → bool) (tr : list (event T)) : nat :=
  length (List.filter kind tr).

Definition is_cuda_question {T} (e : event T) : bool :=
  match e with
  | ECudaIsAvailable => true
  | _ => false
  end.

(** ** A second installation, with faulty entries *)

Module Faulty.

(** Entries of the fetched configuration that lack a key or hold a value
    of the wrong type, and an entry for a model that does not exist. *)
Definition fetched
  : gmap string (gmap string (gmap string (gmap string value))) :=
  {[ "train" :=
       {[ "transformer_torch" :=
            {[ "overfit" := Sample.overfit;
               "no_tokenizer" := delete "tokenizer" Sample.overfit;
               "no_depth" := delete "depth" Sample.overfit;
               "no_epochs" := delete "max_epochs" Sample.overfit;
               "epochs_none" := <["max_epochs" := VNone]> Sample.overfit ]};
          "lstm" := {[ "overfit" := Sample.overfit ]} ]} ]}.

Definition world (gpus epoch : Z) : World Sample.tokenizer := {|
  fetch_config := fetched;
  fetch_tokenizer _ _ := Sample.wp;
  cuda_is_available := 0 <? gpus;
  cuda_device_count := gpus;
  current_epoch := epoch;
|}.

(** The command line [me --model model --ver ver], with [--fast_dev_run]
    if [fast]. *)
Definition args (model ver : string) (fast : bool) : Args := {|
  args_entity := "me";
  args_model := model;
  args_ver := ver;
  args_num_workers := 4;
  args_log_every_n_steps := 1;
  args_fast_dev_run := fast;
  args_overfit_batches := 0;
  args_check_val_every_n_epoch := 1;
|}.

End Faulty.

(** ** Dictionaries: lookups after [update] *)

Section DictUpdate.
Context {V : Type}.
Implicit Types (d : gmap string V) (l : list (string * V)).

Lemma dict_update_cons d k v l :
  dict_update d ((k, v) :: l) = dict_update (<[k := v]> d) l.
Proof. reflexivity. Qed.

(** A key that [other] does not have keeps its binding. *)
Lemma dict_update_lookup_notin l d k :
  k ∉ l.*1 → dict_update d l !! k = d !! k.
Proof.
  revert d. induction l as [|[k' v'] l IH]; intros d Hk; [done|].
  simpl in Hk. apply not_elem_of_cons in Hk as [Hne Hk].
  rewrite dict_update_cons, IH by done.
  by apply lookup_insert_ne.
Qed.

(** A key of [other] gets the value [other] gives it. *)
Lemma dict_update_lookup_in l d k v :
  NoDup l.*1 → (k, v) ∈ l → dict_update d l !! k = Some v.
Proof.
  revert d. induction l as [|[k' v'] l IH]; intros d Hnd Hin.
  - by apply elem_of_nil in Hin.
  - rewrite fmap_cons in Hnd. apply NoDup_cons in Hnd as [Hk' Hnd].
    rewrite dict_update_cons.
    apply elem_of_cons in Hin as [Heq|Hin].
    + injection Heq as -> ->.
      rewrite dict_update_lookup_notin by done. apply lookup_insert_eq.
    + by apply IH.
Qed.
End DictUpdate.

Lemma vars_keys a : (vars a).*1 = cli_keys.
Proof. reflexivity. Qed.

Lemma cli_keys_NoDup : NoDup cli_keys.
Proof. apply (bool_decide_unpack _). by vm_compute. Qed.

(** ** Runs: sequencing *)

Section Sequencing.
Context {T : Type}.

Lemma trace_bind {A B} (m : M T A) (k : A → M T B) :
  trace (m ≫= k)
  = trace m ++ match outcome m with Ok a => trace (k a) | Raise _ => [] end.
Proof.
  unfold mbind, M_bind, bind. destruct m as [tr [a|e]]; simpl.
  - by destruct (k a).
  - by rewrite app_nil_r.
Qed.

Lemma outcome_bind {A B} (m : M T A) (k : A → M T B) :
  outcome (m ≫= k)
  = match outcome m with Ok a => outcome (k a) | Raise e => Raise e end.
Proof.
  unfold mbind, M_bind, bind. destruct m as [tr [a|e]]; simpl; [|done].
  by destruct (k a).
Qed.

Lemma M_eq {A} (m : M T A) tr o : trace m = tr → outcome m = o → m = Run tr o.
Proof. destruct m. simpl. by intros -> ->. Qed.

Lemma getitem_Some {V} (d : gmap string V) k v :
  d !! k = Some v → getitem (T:=T) d k = ret v.
Proof. unfold getitem. by intros ->. Qed.

Lemma getitem_None {V} (d : gmap string V) k :
  d !! k = None → getitem (T:=T) d k = raise (KeyError k).
Proof. unfold getitem. by intros ->. Qed.

Lemma bind_ret {A B} (a : A) (k : A → M T B) : ret a ≫= k = k a.
Proof. unfold mbind, M_bind, bind. simpl. by destruct (k a). Qed.

Lemma bind_raise {A B} e (k : A → M T B) : raise e ≫= k = raise e.
Proof. reflexivity. Qed.

Lemma trace_emit_bind {B} (e : event T) (k : unit → M T B) :
  trace (emit e ≫= k) = e :: trace (k tt).
Proof. by rewrite trace_bind. Qed.

Lemma outcome_emit_bind {B} (e : event T) (k : unit → M T B) :
  outcome (emit e ≫= k) = outcome (k tt).
Proof. by rewrite outcome_bind. Qed.
End Sequencing.

(** ** The steps of the script, one by one *)

(** One step of a run: a dictionary lookup, by cases on the key being
    present; a call of a collaborator. *)
Ltac getitem_cases d k :=
  let E := fresh "E" in
  destruct (d !! k) eqn:E;
  [ rewrite (getitem_Some d k _ E) | rewrite (getitem_None d k E) ];
  rewrite ?bind_ret, ?bind_raise; cbv beta.
Ltac getitem_step :=
  match goal with
  | |- context [outcome (getitem ?d ?k ≫= _)] => getitem_cases d k
  | |- context [trace (getitem ?d ?k ≫= _)] => getitem_cases d k
  end.
Ltac emit_step :=
  first [ rewrite trace_emit_bind | rewrite outcome_emit_bind ]; cbv beta.
Ltac run := repeat first [ emit_step | getitem_step ].

Lemma py_eq_VStr v s : py_eq v (VStr s) = true ↔ v = VStr s.
Proof.
  destruct v; simpl; try (split; [discriminate|intros [=]]).
  rewrite String.eqb_eq. split; [by intros ->|by intros [= ->]].
Qed.

Lemma py_eq_VStr_false v s : py_eq v (VStr s) = false ↔ v ≠ VStr s.
Proof.
  rewrite <- py_eq_VStr. symmetry. apply not_true_iff_false.
Qed.

Section Steps.
Context {T : Type} `{!Tokenizer T} (lib : Lib) (w : World T).
Implicit Types (config : gmap string value) (tok : T).

(** A model comes out of [choose_model] by one constructor call, after
    the question about CUDA on the [TransformerTorch] branch. *)
Lemma choose_model_Ok config tok m :
  outcome (choose_model lib w config tok) = Ok m →
  ∃ hidden_size ffn_size max_length heads depth dropout lr,
    let common :=
      [AVal hidden_size; AVal ffn_size; AVal (VInt (get_vocab_size tok));
       AVal max_length; AVal (VInt (pad_token_id tok)); AVal heads;
       AVal depth; AVal dropout; AVal lr] in
    let device := if cuda_is_available w then torch_device "cuda"
                  else torch_device "cpu" in
    (m = {| model_cls := TransformerTorch;
            model_args := common ++ [ADevice device] |}
     ∧ trace (choose_model lib w config tok) = [ECudaIsAvailable; ENewModel m])
    ∨ (m = {| model_cls := TransformerScratch; model_args := common |}
       ∧ trace (choose_model lib w config tok) = [ENewModel m]).
Proof.
  unfold choose_model, choose_device, new_model.
  getitem_step; [|discriminate].
  destruct (py_eq _ _); [|destruct (py_eq _ _)].
  - rewrite outcome_bind, trace_bind; simpl.
    run; try discriminate.
    intros [= <-]. do 7 eexists. left. split; reflexivity.
  - run; try discriminate.
    intros [= <-]. do 7 eexists. right. split; reflexivity.
  - discriminate.
Qed.

(** When [choose_model] raises, no model was constructed, and a
    [ValueError] is the one of the final [else]. *)
Lemma choose_model_Raise config tok e :
  outcome (choose_model lib w config tok) = Raise e →
  (trace (choose_model lib w config tok) = []
   ∨ trace (choose_model lib w config tok) = [ECudaIsAvailable])
  ∧ ∀ msg, e = ValueError msg → fs_literal msg = "Invalid model: ".
Proof.
  unfold choose_model, choose_device, new_model.
  getitem_step; [|intros [= <-]; split; [by left|discriminate]].
  destruct (py_eq _ _); [|destruct (py_eq _ _)].
  - rewrite outcome_bind, trace_bind; simpl.
    run; try discriminate;
      (intros [= <-]; split; [by right|discriminate]).
  - run; try discriminate;
      (intros [= <-]; split; [by left|discriminate]).
  - intros [= <-]. split; [by left|]. by intros msg [= <-].
Qed.

Lemma choose_data_Ok config tok d :
  outcome (choose_data lib config tok) = Ok d →
  trace (choose_data lib config tok) = [ENewDataModule d]
  ∧ dm_config d = config ∧ dm_tokenizer d = tok.
Proof.
  unfold choose_data, new_datamodule.
  getitem_step; [|discriminate].
  destruct (py_eq _ _); [|destruct (py_eq _ _)]; try discriminate;
    by intros [= <-].
Qed.

Lemma choose_data_Raise config tok e :
  outcome (choose_data lib config tok) = Raise e →
  trace (choose_data lib config tok) = []
  ∧ ∀ msg, e = ValueError msg → fs_literal msg = "Invalid data: ".
Proof.
  unfold choose_data, new_datamodule.
  getitem_step; [|by intros [= <-]].
  destruct (py_eq _ _); [|destruct (py_eq _ _)]; try discriminate.
  intros [= <-]. split; [done|]. by intros msg [= <-].
Qed.

Lemma make_trainer_Ok config t :
  outcome (make_trainer w config) = Ok t →
  trace (make_trainer w config)
  = [ENewWandbLogger (WandbLogger false);
     ENewLearningRateMonitor (LearningRateMonitor "epoch");
     ECudaDeviceCount; ENewTrainer t].
Proof.
  unfold make_trainer. run; try discriminate. by intros [= <-].
Qed.

Lemma make_trainer_Raise config e :
  outcome (make_trainer w config) = Raise e →
  trace (make_trainer w config)
  = [ENewWandbLogger (WandbLogger false);
     ENewLearningRateMonitor (LearningRateMonitor "epoch")]
  ∧ ∃ k, e = KeyError k.
Proof.
  unfold make_trainer. run; try discriminate; intros [= <-]; eauto.
Qed.

Lemma properly_done_trace config : trace (properly_done w config) = [].
Proof.
  unfold properly_done.
  getitem_step; [|done]. destruct (truthy _); [done|].
  getitem_step; [|done]. by destruct (py_sub1 _).
Qed.

(** The condition of the final [if] is the run-completion gate. *)
Lemma properly_done_gate config b :
  config !! "fast_dev_run" = Some (VBool b) →
  outcome (properly_done w config) = Ok true
  ↔ gate_holds config (current_epoch w).
Proof.
  intros Hfdr. unfold properly_done, gate_holds.
  rewrite (getitem_Some _ _ _ Hfdr), bind_ret, Hfdr. cbn [truthy].
  destruct b.
  - split; [discriminate|]. by intros [[=] _].
  - getitem_step.
    + rewrite outcome_bind. cbn [lift outcome].
      destruct (py_sub1 v) as [last|e] eqn:Hsub.
      * cbn [mret M_ret ret outcome]. split.
        -- intros [= Heq]. split; [done|]. by exists v, last.
        -- intros (_ & v' & last' & [= <-] & Hsub' & Heq).
           rewrite Hsub in Hsub'. injection Hsub' as <-. by rewrite Heq.
      * split; [discriminate|].
        intros (_ & v' & last' & [= <-] & Hsub' & _). congruence.
    + split; [discriminate|]. by intros (_ & v' & last' & [=] & _).
Qed.

(** The condition of the final [if] raises no [ValueError]. *)
Lemma properly_done_Raise config e :
  outcome (properly_done w config) = Raise e → ∀ msg, e ≠ ValueError msg.
Proof.
  unfold properly_done.
  getitem_step; [|by intros [= <-]]. destruct (truthy _); [discriminate|].
  getitem_step; [|by intros [= <-]].
  rewrite outcome_bind. cbn [lift outcome].
  destruct (py_sub1 _) eqn:Hsub; [discriminate|].
  intros [= <-]. intros msg ->.
  by match type of Hsub with py_sub1 ?v = _ => destruct v end.
Qed.

Lemma save_and_upload_spec config t name ver :
  config !! "model" = Some name →
  config !! "ver" = Some ver →
  save_and_upload (T:=T) lib config t
  = Run (upload_sequence lib config t name ver) (Ok tt).
Proof.
  intros Hname Hver. unfold save_and_upload, upload_sequence.
  apply M_eq.
  - rewrite trace_emit_bind, (getitem_Some _ _ _ Hname), bind_ret.
    rewrite !trace_emit_bind, (getitem_Some _ _ _ Hver), bind_ret.
    by rewrite trace_emit_bind.
  - rewrite outcome_emit_bind, (getitem_Some _ _ _ Hname), bind_ret.
    rewrite !outcome_emit_bind, (getitem_Some _ _ _ Hver), bind_ret.
    by rewrite outcome_emit_bind.
Qed.

(** The final [if] statement, when the gate holds. *)
Lemma save_if_done_gate config t b name ver :
  config !! "fast_dev_run" = Some (VBool b) →
  config !! "model" = Some name →
  config !! "ver" = Some ver →
  gate_holds config (current_epoch w) →
  save_if_done lib w config t
  = Run (upload_sequence lib config t name ver) (Ok tt).
Proof.
  intros Hfdr Hname Hver Hgate.
  apply (properly_done_gate _ _ Hfdr) in Hgate.
  unfold save_if_done. apply M_eq.
  - rewrite trace_bind, properly_done_trace, Hgate.
    by rewrite (save_and_upload_spec _ _ _ _ Hname Hver).
  - rewrite outcome_bind, Hgate.
    by rewrite (save_and_upload_spec _ _ _ _ Hname Hver).
Qed.

(** The final [if] statement, when the gate does not hold: nothing is
    called, and no [ValueError] is raised. *)
Lemma save_if_done_no_gate config t b :
  config !! "fast_dev_run" = Some (VBool b) →
  ¬ gate_holds config (current_epoch w) →
  trace (save_if_done lib w config t) = []
  ∧ ∀ msg, outcome (save_if_done lib w config t) ≠ Raise (ValueError msg).
Proof.
  intros Hfdr Hgate.
  rewrite <- (properly_done_gate _ _ Hfdr) in Hgate.
  unfold save_if_done.
  rewrite trace_bind, outcome_bind, properly_done_trace.
  destruct (outcome (properly_done w config)) as [[]|e] eqn:Hdone; try done.
  split; [done|]. intros msg [= ->].
  by eapply properly_done_Raise.
Qed.

End Steps.

(** ** The whole run *)

Section Whole.
Context {T : Type} `{!Tokenizer T} (lib : Lib) (w : World T).
Implicit Types (config : gmap string value) (a : Args).

Lemma merged_config_trace a : trace (merged_config w a) = [EFetchConfig].
Proof. unfold merged_config. run; reflexivity. Qed.

Lemma merged_config_outcome a :
  (∃ k, outcome (merged_config w a) = Raise (KeyError k))
  ∨ (∃ c, outcome (merged_config w a) = Ok (dict_update c (vars a))).
Proof. unfold merged_config. run; simpl; eauto. Qed.

(** The merged configuration binds every command-line key to its
    command-line value. *)
Lemma merged_lookup a config k v :
  outcome (merged_config w a) = Ok config →
  (k, v) ∈ vars a → config !! k = Some v.
Proof.
  intros Hm Hin. destruct (merged_config_outcome a) as [[k' Hk]|[c Hc]].
  - congruence.
  - replace config with (dict_update c (vars a)) by congruence.
    apply dict_update_lookup_in; [|done].
    rewrite vars_keys. apply cli_keys_NoDup.
Qed.

Lemma main_no_config a e :
  outcome (merged_config w a) = Raise e →
  main lib w a = Run [EFetchConfig] (Raise e).
Proof.
  intros Hm. unfold main. apply M_eq.
  - by rewrite trace_bind, Hm, merged_config_trace.
  - by rewrite outcome_bind, Hm.
Qed.

Lemma main_session a config :
  outcome (merged_config w a) = Ok config →
  main lib w a
  = Run (opening a config ++ trace (session lib w config)
         ++ [EWandbExit (exception_of (outcome (session lib w config)))])
        (outcome (session lib w config)).
Proof.
  intros Hm. unfold main.
  assert (config !! "entity" = Some (VStr (args_entity a))) as He.
  { apply (merged_lookup a); [done|]. set_solver. }
  apply M_eq.
  - rewrite trace_bind, Hm, merged_config_trace.
    by rewrite (getitem_Some _ _ _ He), bind_ret.
  - rewrite outcome_bind, Hm.
    by rewrite (getitem_Some _ _ _ He), bind_ret.
Qed.

Lemma choose_model_built config tok m :
  outcome (choose_model lib w config tok) = Ok m →
  ∃ cuda, built_model w config tok cuda m
          ∧ trace (choose_model lib w config tok) = cuda ++ [ENewModel m].
Proof.
  intros Hm.
  destruct (choose_model_Ok lib w _ _ _ Hm)
    as (hs & ffn & ml & hd & dp & dr & lr & [[-> Htr]|[-> Htr]]).
  - exists [ECudaIsAvailable]. split; [|done].
    exists hs, ffn, ml, hd, dp, dr, lr. by left.
  - exists []. split; [|done].
    exists hs, ffn, ml, hd, dp, dr, lr. by right.
Qed.

Lemma built_model_cuda config tok cuda m :
  built_model w config tok cuda m → cuda = [] ∨ cuda = [ECudaIsAvailable].
Proof. intros (?&?&?&?&?&?&?&[[_ ->]|[_ ->]]); auto. Qed.

Ltac same_run H :=
  rewrite H; unfold opening, logging; simpl;
  rewrite ?app_nil_r, <- ?app_assoc; reflexivity.

(** Every run of [main] goes one of the seven ways. *)
Lemma main_cases_hold a : main_cases lib w a.
Proof.
  destruct (outcome (merged_config w a)) as [config|e] eqn:Hm.
  2:{ destruct (merged_config_outcome a) as [[k Hk]|[c Hc]]; [|congruence].
      rewrite Hm in Hk. injection Hk as ->.
      eapply no_config; [done|]. by apply main_no_config. }
  pose proof (main_session a config Hm) as Hmain.
  assert (config !! "entity" = Some (VStr (args_entity a))) as He.
  { apply (merged_lookup a); [done|]. set_solver. }
  assert (config !! "model" = Some (VStr (args_model a))) as Hmodel.
  { apply (merged_lookup a); [done|]. set_solver. }
  assert (config !! "ver" = Some (VStr (args_ver a))) as Hver.
  { apply (merged_lookup a); [done|]. set_solver. }
  assert (config !! "fast_dev_run" = Some (VBool (args_fast_dev_run a)))
    as Hfdr.
  { apply (merged_lookup a); [done|]. set_solver. }
  revert Hmain. unfold session.
  rewrite (getitem_Some _ _ _ He), bind_ret.
  destruct (config !! "tokenizer") as [name|] eqn:Hname.
  2:{ rewrite (getitem_None _ _ Hname), bind_raise. intros Hmain.
      eapply no_tokenizer; [done|done|exact Hmain]. }
  rewrite (getitem_Some _ _ _ Hname), bind_ret.
  rewrite trace_emit_bind, outcome_emit_bind, trace_bind, outcome_bind.
  set (tok := fetch_tokenizer w (VStr (args_entity a)) name).
  destruct (outcome (choose_model lib w config tok)) as [m|e] eqn:HM.
  2:{ intros Hmain. apply choose_model_Raise in HM as [Hcuda Hmsg].
      apply (no_model lib w a config name
               (trace (choose_model lib w config tok)) e);
        [done|done|done|done|].
      same_run Hmain. }
  apply choose_model_built in HM as (cuda & Hbuilt & Htr).
  rewrite Htr. clear Htr.
  rewrite trace_bind, outcome_bind.
  destruct (outcome (choose_data lib config tok)) as [d|e] eqn:HD.
  2:{ apply choose_data_Raise in HD as [Htr Hmsg]. rewrite Htr.
      intros Hmain. eapply no_data; [done|done|done|done|].
      same_run Hmain. }
  apply choose_data_Ok in HD as (Htr & Hdc & Hdt). rewrite Htr. clear Htr.
  rewrite trace_bind, outcome_bind.
  destruct (outcome (make_trainer w config)) as [t|e] eqn:HT.
  2:{ apply make_trainer_Raise in HT as [Htr [k ->]]. rewrite Htr.
      intros Hmain. eapply no_trainer; [done|done|done|done|done|].
      same_run Hmain. }
  apply make_trainer_Ok in HT as Htr. rewrite Htr. clear Htr.
  rewrite trace_emit_bind, outcome_emit_bind.
  destruct (outcome (properly_done w config)) as [[]|e] eqn:Hdone.
  - assert (gate_holds config (current_epoch w)) as Hgate.
    { by apply (properly_done_gate w _ _ Hfdr). }
    rewrite (save_if_done_gate lib w _ _ _ _ _ Hfdr Hmodel Hver Hgate).
    intros Hmain. eapply trained_done; [done|done|done|done|done|done|].
    same_run Hmain.
  - assert (¬ gate_holds config (current_epoch w)) as Hgate.
    { rewrite <- (properly_done_gate w _ _ Hfdr). congruence. }
    destruct (save_if_done_no_gate lib w _ t _ Hfdr Hgate) as [Htr Ho].
    rewrite Htr. intros Hmain.
    eapply trained_not_done; [done|done|done|done|done|done|exact Ho|].
    same_run Hmain.
  - assert (¬ gate_holds config (current_epoch w)) as Hgate.
    { rewrite <- (properly_done_gate w _ _ Hfdr). congruence. }
    destruct (save_if_done_no_gate lib w _ t _ Hfdr Hgate) as [Htr Ho].
    rewrite Htr. intros Hmain.
    eapply trained_not_done; [done|done|done|done|done|done|exact Ho|].
    same_run Hmain.
Qed.

End Whole.

(** ** The merge of the configuration *)

Section Merge.
Context {T : Type} (w : World T).

(** C4.  When the fetched configuration has the entry
    [['train'][args.model][args.ver]], the merged configuration is that
    entry updated with [vars(args)]: every command-line key (entity, model,
    ver, num_workers, log_every_n_steps, fast_dev_run, overfit_batches,
    check_val_every_n_epoch) is bound to its command-line value, whatever
    the fetched entry binds it to, and every other key is bound as in the
    fetched entry. *)
Theorem merged_config_spec (a : Args) train by_ver (c : gmap string value) :
  fetch_config w !! "train" = Some train →
  train !! args_model a = Some by_ver →
  by_ver !! args_ver a = Some c →
  ∃ merged : gmap string value,
    outcome (merged_config w a) = Ok merged
    ∧ merged = dict_update c (vars a)
    ∧ (vars a).*1 = cli_keys
    ∧ (∀ k v, (k, v) ∈ vars a → merged !! k = Some v)
    ∧ (∀ k, k ∉ cli_keys → merged !! k = c !! k).
Proof.
  intros Htrain Hmodel Hver. exists (dict_update c (vars a)).
  split; [|split; [done|split; [done|split]]].
  - unfold merged_config. rewrite outcome_emit_bind.
    rewrite (getitem_Some _ _ _ Htrain), bind_ret.
    rewrite (getitem_Some _ _ _ Hmodel), bind_ret.
    rewrite (getitem_Some _ _ _ Hver), bind_ret.
    reflexivity.
  - intros k v Hin. apply dict_update_lookup_in; [|done].
    rewrite vars_keys. apply cli_keys_NoDup.
  - intros k Hk. apply dict_update_lookup_notin. by rewrite vars_keys.
Qed.
End Merge.

(** The sample installation, started with the positional argument alone. *)
Lemma merged_config_spec_sample :
  ∃ merged : gmap string value,
    outcome (merged_config (Sample.world 0 9) (default_args "me")) = Ok merged
    ∧ merged = dict_update Sample.overfit (vars (default_args "me"))
    ∧ (vars (default_args "me")).*1 = cli_keys
    ∧ (∀ k v, (k, v) ∈ vars (default_args "me") → merged !! k = Some v)
    ∧ (∀ k, k ∉ cli_keys → merged !! k = Sample.overfit !! k).
Proof.
  apply (merged_config_spec (Sample.world 0 9) (default_args "me")
           (Sample.fetched !!! "train")
           {[ "overfit" := Sample.overfit ]});
    reflexivity.
Defined.

(** ** The two dispatches *)

Section Dispatch.
Context {T : Type} `{!Tokenizer T} (lib : Lib) (w : World T).

(** C2.  On every merged configuration the model dispatch goes by
    [config['model']], which is [args.model].  If it is
    [TransformerTorch.name]: when the configuration has hidden_size,
    ffn_size, max_length, heads, depth, dropout and lr, one
    [TransformerTorch] is constructed with (hidden_size, ffn_size,
    vocabulary size, max_length, pad_token_id, heads, depth, dropout, lr,
    device); when one of them is missing, [KeyError] is raised with the
    first that is missing and no model is constructed.  Else if it is
    [TransformerScratch.name]: the same for one [TransformerScratch], with
    the same arguments without the device.  Otherwise [ValueError] is raised
    and nothing is constructed. *)
Theorem model_dispatch (a : Args) (c : gmap string value) (tok : T) :
  let config := dict_update c (vars a) in
  (args_model a = TransformerTorch_name lib →
   match common_arguments config tok with
   | Some args =>
       let m := {| model_cls := TransformerTorch;
                   model_args := args ++ [ADevice (machine_device w)] |} in
       choose_model lib w config tok
       = Run [ECudaIsAvailable; ENewModel m] (Ok m)
   | None =>
       ∃ k, first_missing config hyper_keys = Some k
            ∧ choose_model lib w config tok
              = Run [ECudaIsAvailable] (Raise (KeyError k))
   end)
  ∧ (args_model a ≠ TransformerTorch_name lib →
     args_model a = TransformerScratch_name lib →
     match common_arguments config tok with
     | Some args =>
         let m := {| model_cls := TransformerScratch; model_args := args |} in
         choose_model lib w config tok = Run [ENewModel m] (Ok m)
     | None =>
         ∃ k, first_missing config hyper_keys = Some k
              ∧ choose_model lib w config tok = Run [] (Raise (KeyError k))
     end)
  ∧ (args_model a ≠ TransformerTorch_name lib →
     args_model a ≠ TransformerScratch_name lib →
     choose_model lib w config tok
     = Run [] (Raise (ValueError
                        (FString "Invalid model: " (VStr (args_model a)))))).
Proof.
  intros config.
  assert (config !! "model" = Some (VStr (args_model a))) as Hmodel.
  { apply dict_update_lookup_in; [|set_solver].
    rewrite vars_keys. apply cli_keys_NoDup. }
  clearbody config.
  assert (∀ s, py_eq (VStr (args_model a)) (VStr s) = true ↔ args_model a = s)
    as Heq.
  { intros s. rewrite py_eq_VStr. split; [by intros [=]|by intros ->]. }
  assert (∀ s, args_model a ≠ s → py_eq (VStr (args_model a)) (VStr s) = false)
    as Hne.
  { intros s Hs. apply not_true_iff_false. by rewrite Heq. }
  unfold choose_model.
  rewrite !(getitem_Some _ _ _ Hmodel), bind_ret.
  split; [|split].
  - intros Htorch. apply Heq in Htorch. rewrite Htorch.
    unfold common_arguments, getitem. cbn [first_missing hyper_keys].
    destruct (config !! "hidden_size") as [hs|];
      [|by exists "hidden_size"].
    destruct (config !! "ffn_size") as [ffn|]; [|by exists "ffn_size"].
    destruct (config !! "max_length") as [ml|]; [|by exists "max_length"].
    destruct (config !! "heads") as [hd|]; [|by exists "heads"].
    destruct (config !! "depth") as [dp|]; [|by exists "depth"].
    destruct (config !! "dropout") as [dr|]; [|by exists "dropout"].
    destruct (config !! "lr") as [lr|]; [|by exists "lr"].
    reflexivity.
  - intros Hntorch Hscratch. rewrite (Hne _ Hntorch), bind_ret.
    apply Heq in Hscratch. rewrite Hscratch.
    unfold common_arguments, getitem. cbn [first_missing hyper_keys].
    destruct (config !! "hidden_size") as [hs|];
      [|by exists "hidden_size"].
    destruct (config !! "ffn_size") as [ffn|]; [|by exists "ffn_size"].
    destruct (config !! "max_length") as [ml|]; [|by exists "max_length"].
    destruct (config !! "heads") as [hd|]; [|by exists "heads"].
    destruct (config !! "depth") as [dp|]; [|by exists "depth"].
    destruct (config !! "dropout") as [dr|]; [|by exists "dropout"].
    destruct (config !! "lr") as [lr|]; [|by exists "lr"].
    reflexivity.
  - intros Hntorch Hnscratch.
    by rewrite (Hne _ Hntorch), bind_ret, (Hne _ Hnscratch), bind_ret.
Qed.

(** C3.  On every merged configuration that has [data], the data
    dispatch raises [ValueError] exactly when [config['data']] is neither
    [Kor2EngDataModule.name] nor [Kor2EngSmallDataModule.name]; otherwise it
    constructs one data module, the one of the first name that matches, from
    the merged configuration and the tokenizer.  On a merged configuration
    without [data] it raises [KeyError('data')] and constructs nothing. *)
Theorem data_dispatch (a : Args) (c : gmap string value) (tok : T) :
  let config := dict_update c (vars a) in
  match config !! "data" with
  | None => choose_data lib config tok = Run [] (Raise (KeyError "data"))
  | Some v =>
      ((∃ msg, outcome (choose_data lib config tok) = Raise (ValueError msg))
       ↔ v ≠ VStr (Kor2EngDataModule_name lib)
         ∧ v ≠ VStr (Kor2EngSmallDataModule_name lib))
      ∧ (v = VStr (Kor2EngDataModule_name lib) →
         let d := {| dm_cls := Kor2EngDataModule; dm_config := config;
                     dm_tokenizer := tok |} in
         choose_data lib config tok = Run [ENewDataModule d] (Ok d))
      ∧ (v ≠ VStr (Kor2EngDataModule_name lib) →
         v = VStr (Kor2EngSmallDataModule_name lib) →
         let d := {| dm_cls := Kor2EngSmallDataModule; dm_config := config;
                     dm_tokenizer := tok |} in
         choose_data lib config tok = Run [ENewDataModule d] (Ok d))
  end.
Proof.
  intros config. clearbody config. unfold choose_data.
  destruct (config !! "data") as [v|] eqn:Hdata.
  2:{ by rewrite (getitem_None _ _ Hdata), bind_raise. }
  rewrite !(getitem_Some _ _ _ Hdata), bind_ret.
  rewrite <- !py_eq_VStr_false.
  destruct (py_eq v (VStr (Kor2EngDataModule_name lib))) eqn:H1.
  - apply py_eq_VStr in H1. split; [|split]; [|done|done].
    split; [by intros [msg [=]]|by intros [[=] _]].
  - rewrite bind_ret.
    destruct (py_eq v (VStr (Kor2EngSmallDataModule_name lib))) eqn:H2.
    + apply py_eq_VStr in H2. split; [|split]; [| |done].
      * split; [by intros [msg [=]]|by intros [_ [=]]].
      * intros ->. by rewrite (proj2 (py_eq_VStr _ _)) in H1.
    + rewrite bind_ret. split; [|split].
      * split; [done|]. intros _. by eexists.
      * intros ->. by rewrite (proj2 (py_eq_VStr _ _)) in H1.
      * intros _ ->. by rewrite (proj2 (py_eq_VStr _ _)) in H2.
Qed.

End Dispatch.

(** The sample installation: the default model is [TransformerTorch]. *)
Lemma model_dispatch_sample :
  choose_model Sample.lib (Sample.world 0 9)
    (dict_update Sample.overfit (vars (default_args "me"))) Sample.wp
  = Run [ECudaIsAvailable;
         ENewModel {| model_cls := TransformerTorch;
                      model_args :=
                        [AVal (VInt 512); AVal (VInt 512); AVal (VInt 3);
                         AVal (VInt 145); AVal (VInt 0); AVal (VInt 8);
                         AVal (VInt 3); AVal (VFloat 0.0%float);
                         AVal (VFloat 0.0009765625%float);
                         ADevice (torch_device "cpu")] |}]
        (Ok {| model_cls := TransformerTorch;
               model_args :=
                 [AVal (VInt 512); AVal (VInt 512); AVal (VInt 3);
                  AVal (VInt 145); AVal (VInt 0); AVal (VInt 8);
                  AVal (VInt 3); AVal (VFloat 0.0%float);
                  AVal (VFloat 0.0009765625%float);
                  ADevice (torch_device "cpu")] |}).
Proof.
  destruct (model_dispatch Sample.lib (Sample.world 0 9) (default_args "me")
              Sample.overfit Sample.wp) as [Htorch _].
  exact (Htorch eq_refl).
Defined.

(** A merged configuration without [depth]: [config['model']] is
    [TransformerTorch.name], and no [TransformerTorch] is constructed. *)
Lemma model_dispatch_counterexample :
  let config := dict_update (delete "depth" Sample.overfit)
                  (vars (default_args "me")) in
  config !! "model" = Some (VStr (TransformerTorch_name Sample.lib))
  ∧ choose_model Sample.lib (Sample.world 0 9) config Sample.wp
    = Run [ECudaIsAvailable] (Raise (KeyError "depth")).
Proof. by vm_compute. Qed.

(** The sample installation: the data of its merged configuration is the
    small data module. *)
Lemma data_dispatch_sample :
  let config := dict_update Sample.overfit (vars (default_args "me")) in
  ((∃ msg, outcome (choose_data Sample.lib config Sample.wp)
           = Raise (ValueError msg))
   ↔ VStr "kor2eng_small" ≠ VStr (Kor2EngDataModule_name Sample.lib)
     ∧ VStr "kor2eng_small" ≠ VStr (Kor2EngSmallDataModule_name Sample.lib))
  ∧ (VStr "kor2eng_small" = VStr (Kor2EngDataModule_name Sample.lib) →
     let d := {| dm_cls := Kor2EngDataModule; dm_config := config;
                 dm_tokenizer := Sample.wp |} in
     choose_data Sample.lib config Sample.wp
     = Run [ENewDataModule d] (Ok d))
  ∧ (VStr "kor2eng_small" ≠ VStr (Kor2EngDataModule_name Sample.lib) →
     VStr "kor2eng_small" = VStr (Kor2EngSmallDataModule_name Sample.lib) →
     let d := {| dm_cls := Kor2EngSmallDataModule; dm_config := config;
                 dm_tokenizer := Sample.wp |} in
     choose_data Sample.lib config Sample.wp
     = Run [ENewDataModule d] (Ok d)).
Proof.
  exact (data_dispatch Sample.lib (default_args "me") Sample.overfit
           Sample.wp).
Defined.

(** A merged configuration without [data]: the dispatch raises
    [KeyError], not [ValueError], and constructs no data module. *)
Lemma data_dispatch_counterexample :
  let config := dict_update (delete "data" Sample.overfit)
                  (vars (default_args "me")) in
  config !! "data" = None
  ∧ choose_data Sample.lib config Sample.wp
    = Run [] (Raise (KeyError "data")).
Proof. by vm_compute. Qed.

(** ** Properties of whole runs *)

(** The cases of [main_cases_hold], with the run rewritten to its events. *)
Ltac by_cases lib w a :=
  destruct (main_cases_hold lib w a) as
    [ k' Hm' Hmain
    | config' Hm' Htok Hmain
    | config' name' cuda' e' Hm' Htok Hcuda Hmsg Hmain
    | config' name' cuda' m' e' Hm' Htok Hbuilt Hmsg Hmain
    | config' name' cuda' m' d' k' Hm' Htok Hbuilt Hdc Hdt Hmain
    | config' name' cuda' m' d' t' o' Hm' Htok Hbuilt Hdc Hdt Hgate Ho Hmain
    | config' name' cuda' m' d' t' Hm' Htok Hbuilt Hdc Hdt Hgate Hmain ].

(** The two forms of the question about CUDA. *)
Ltac cuda_cases :=
  try match goal with
      | H : built_model _ _ _ _ _ |- _ =>
          pose proof (built_model_cuda _ _ _ _ _ H) as Hcuda
      end;
  match goal with
  | H : _ = [] ∨ _ = [ECudaIsAvailable] |- _ => destruct H as [->| ->]
  end.

(** Membership in a list of events given one by one. *)
Ltac elem_inv H :=
  first [ apply elem_of_nil in H; destruct H
        | apply elem_of_cons in H as [H|H]; [try discriminate H | elem_inv H]
        | idtac ].

Ltac events :=
  cbn [trace]; unfold opening, logging, upload_sequence; simpl.

Section Runs.
Context {T : Type} `{!Tokenizer T} (lib : Lib) (w : World T).
Implicit Types (config : gmap string value) (a : Args).

(** C8.  If the merged configuration has [fast_dev_run] true, the run saves
    no checkpoint, creates no artifact, adds no file to one, logs none and
    removes no file, whatever [trainer.current_epoch] and
    [config['max_epochs']] are. *)
Theorem fast_dev_run_never_uploads a config :
  outcome (merged_config w a) = Ok config →
  config !! "fast_dev_run" = Some (VBool true) →
  ∀ e, e ∈ trace (main lib w a) → is_upload e = false.
Proof.
  intros Hm Hfdr. apply Forall_forall.
  by_cases lib w a; rewrite Hmain; try cuda_cases; events;
    try (repeat constructor).
  all: assert (config' = config) as -> by congruence.
  all: destruct Hgate as [Hgate _]; congruence.
Qed.

(** C10.  If a run ends with [ValueError], it is the one of a dispatch
    (unrecognised model or data), and in that run [trainer.fit] is not
    called, no checkpoint is saved and no artifact is created, filled,
    logged or removed. *)
Theorem value_error_stops_run a msg :
  outcome (main lib w a) = Raise (ValueError msg) →
  (fs_literal msg = "Invalid model: " ∨ fs_literal msg = "Invalid data: ")
  ∧ ∀ e, e ∈ trace (main lib w a) → is_fit e = false ∧ is_upload e = false.
Proof.
  intros Hout. rewrite <- Forall_forall. revert Hout.
  by_cases lib w a; rewrite Hmain; cbn [outcome]; intros Hout;
    try discriminate Hout.
  - injection Hout as ->. split; [left; by apply Hmsg|].
    cuda_cases; events; repeat constructor.
  - injection Hout as ->. split; [right; by apply Hmsg|].
    cuda_cases; events; repeat constructor.
  - by destruct (Ho msg).
Qed.

(** C9.  Every model a run constructs is a [TransformerTorch] whose tenth
    argument is the one device argument, [torch.device("cuda")] if CUDA is
    available and [torch.device("cpu")] otherwise, or a [TransformerScratch]
    with nine arguments, none of them a device. *)
Theorem device_only_for_torch a m :
  ENewModel m ∈ trace (main lib w a) →
  (model_cls m = TransformerTorch
   ∧ length (model_args m) = 10%nat
   ∧ ∀ i d, model_args m !! i = Some (ADevice d)
            ↔ i = 9%nat
              ∧ d = torch_device (if cuda_is_available w then "cuda"
                                  else "cpu"))
  ∨ (model_cls m = TransformerScratch
     ∧ length (model_args m) = 9%nat
     ∧ ∀ d, ADevice d ∉ model_args m).
Proof.
  by_cases lib w a; rewrite Hmain; events; intros Hin.
  1-3: try cuda_cases; simpl in Hin; elem_inv Hin.
  all: assert (m = m') as ->
    by (cuda_cases; simpl in Hin; elem_inv Hin; congruence).
  all: destruct Hbuilt as (hs & ffn & ml & hd & dp & dr & lr & Hb);
    simpl in Hb; destruct Hb as [[-> _]|[-> _]]; [left|right].
  all: simpl; split; [done|split; [done|]].
  all: try (intros i d; split;
            [ intros Hi; do 10 (destruct i as [|i]; try discriminate Hi);
              simpl in Hi; injection Hi as <-;
              by destruct (cuda_is_available w)
            | intros [-> ->]; by destruct (cuda_is_available w) ]).
  all: intros d Hd; elem_inv Hd.
Qed.

(** C6.  In a run that reaches training, the tokenizer is fetched by
    [(config['entity'], config['tokenizer'])] before the model is
    constructed; then the model, the data module and the trainer are
    constructed, in this order; the model receives the vocabulary size and
    the padding id of that tokenizer, the data module that tokenizer and the
    merged configuration; and [trainer.fit] is called with that model and
    that data module.  What follows is the save/upload/cleanup sequence,
    if any, and the end of the wandb run: one tokenizer, one model, one data
    module and one call of [fit] in the run. *)
Theorem training_order a config t m d :
  outcome (merged_config w a) = Ok config →
  EFit t m d ∈ trace (main lib w a) →
  ∃ name cuda post,
    let tok := fetch_tokenizer w (VStr (args_entity a)) name in
    config !! "entity" = Some (VStr (args_entity a))
    ∧ config !! "tokenizer" = Some name
    ∧ trace (main lib w a)
      = opening a config
        ++ [EFetchTokenizer (VStr (args_entity a)) name] ++ cuda
        ++ [ENewModel m; ENewDataModule d] ++ logging
        ++ [ECudaDeviceCount; ENewTrainer t; EFit t m d] ++ post
    ∧ (cuda = [] ∨ cuda = [ECudaIsAvailable])
    ∧ model_args m !! 2%nat = Some (AVal (VInt (get_vocab_size tok)))
    ∧ model_args m !! 4%nat = Some (AVal (VInt (pad_token_id tok)))
    ∧ dm_tokenizer d = tok
    ∧ dm_config d = config
    ∧ Forall (λ e, is_upload e = true ∨ ∃ exc, e = EWandbExit exc) post.
Proof.
  intros Hm. 
  assert (config !! "entity" = Some (VStr (args_entity a))) as He.
  { apply (merged_lookup w a); [done|]. set_solver. }
  by_cases lib w a; rewrite Hmain; intros Hin.
  1-5: try cuda_cases; events; simpl in Hin; elem_inv Hin.
  all: assert (config' = config) as -> by congruence.
  all: assert (EFit t m d = EFit t' m' d') as [= -> -> ->]
    by (cuda_cases; simpl in Hin; elem_inv Hin; congruence).
  all: eexists name', cuda', _; cbn zeta.
  all: split; [done|split; [done|split; [cbn [trace]; reflexivity|]]].
  all: split; [by eapply built_model_cuda|].
  all: destruct Hbuilt as (hs & ffn & ml & hd & dp & dr & lr & Hb);
    simpl in Hb.
  all: split; [by destruct Hb as [[-> _]|[-> _]]|].
  all: split; [by destruct Hb as [[-> _]|[-> _]]|].
  all: split; [done|split; [done|]].
  all: unfold upload_sequence; simpl.
  all: repeat (apply Forall_cons; split; [first [by left|right; by eexists]|]).
  all: constructor.
Qed.

End Runs.

Section Gate.
Context {T : Type} `{!Tokenizer T} (lib : Lib) (w : World T).
Implicit Types (config : gmap string value) (a : Args).

(** C5.  In a run that reaches the end of training with the gate holding,
    the steps after [trainer.fit] are, one after the other: save a
    checkpoint to [os.path.join(ROOT_DIR, 'transformer.ckpt')], create an
    artifact named [config['model']] of type ['model'] with the merged
    configuration as metadata, add the checkpoint file to it, log it with
    the aliases ['latest'] and [config['ver']], remove the checkpoint
    file; then the wandb run is closed and [main] returns. *)
Theorem upload_steps_in_order a config t m d :
  outcome (merged_config w a) = Ok config →
  EFit t m d ∈ trace (main lib w a) →
  gate_holds config (current_epoch w) →
  let ckpt_path := os_path_join (ROOT_DIR lib) "transformer.ckpt" in
  let artifact := {| art_name := VStr (args_model a); art_type := "model";
                     art_metadata := config; art_files := [] |} in
  config !! "model" = Some (VStr (args_model a))
  ∧ config !! "ver" = Some (VStr (args_ver a))
  ∧ (ROOT_DIR lib ≠ EmptyString → ends_with_sep (ROOT_DIR lib) = false →
     ckpt_path = ROOT_DIR lib +:+ "/transformer.ckpt")
  ∧ art_files (add_file artifact ckpt_path) = [ckpt_path]
  ∧ outcome (main lib w a) = Ok tt
  ∧ ∃ pre,
      Forall (λ e, is_upload e = false) pre
      ∧ trace (main lib w a)
        = pre ++ [EFit t m d;
                  ESaveCheckpoint t ckpt_path;
                  ENewArtifact artifact;
                  EAddFile artifact ckpt_path;
                  ELogArtifact (add_file artifact ckpt_path)
                    [VStr "latest"; VStr (args_ver a)];
                  ERemove ckpt_path;
                  EWandbExit None].
Proof.
  intros Hm Hin Hg ckpt_path artifact.
  split; [apply (merged_lookup w a); [done|set_solver]|].
  split; [apply (merged_lookup w a); [done|set_solver]|].
  split.
  { intros Hne Hsep. unfold ckpt_path, os_path_join. simpl.
    rewrite Hsep. apply String.eqb_neq in Hne. by rewrite Hne. }
  split; [done|]. revert Hin.
  by_cases lib w a; rewrite Hmain; intros Hin.
  1-5: try cuda_cases; events; simpl in Hin; elem_inv Hin.
  all: assert (config' = config) as -> by congruence.
  { by destruct Hgate. }
  assert (EFit t m d = EFit t' m' d') as [= -> -> ->]
    by (cuda_cases; simpl in Hin; elem_inv Hin; congruence).
  split; [done|].
  exists (opening a config
          ++ [EFetchTokenizer (VStr (args_entity a)) name'] ++ cuda'
          ++ [ENewModel m'; ENewDataModule d'] ++ logging
          ++ [ECudaDeviceCount; ENewTrainer t']).
  split.
  - cuda_cases; events; repeat constructor.
  - cbn [trace]. unfold upload_sequence. fold ckpt_path. fold artifact.
    rewrite <- !app_assoc. reflexivity.
Qed.

(** C1.  The save/upload/cleanup sequence is executed if and only if the
    run reaches the end of training, the merged configuration has
    [fast_dev_run] false and [trainer.current_epoch] equals
    [config['max_epochs'] - 1]; in every run where one of the two
    conditions fails, no checkpoint is saved and no artifact is created,
    filled, logged or removed. *)
Theorem upload_iff_gate a config :
  outcome (merged_config w a) = Ok config →
  ((∃ t pre post,
      trace (main lib w a)
      = pre ++ upload_sequence lib config t (VStr (args_model a))
                 (VStr (args_ver a)) ++ post)
   ↔ (∃ t m d, EFit t m d ∈ trace (main lib w a))
     ∧ gate_holds config (current_epoch w))
  ∧ (¬ gate_holds config (current_epoch w) →
     ∀ e, e ∈ trace (main lib w a) → is_upload e = false).
Proof.
  intros Hm.
  assert (∀ tr : list (event T),
            Forall (λ e, is_upload e = false) tr →
            ¬ ∃ t pre post,
                tr = pre ++ upload_sequence lib config t (VStr (args_model a))
                             (VStr (args_ver a)) ++ post) as Hseq.
  { intros tr Hnone (t & pre & post & ->).
    apply Forall_app in Hnone as [_ Hnone].
    apply Forall_app in Hnone as [Hnone _].
    apply Forall_cons in Hnone as [Hsave _]. discriminate Hsave. }
  by_cases lib w a; try cuda_cases; rewrite Hmain; cbn [trace].
  1: congruence.
  all: assert (config' = config) as -> by congruence.
  all: unfold opening, logging; simpl.
  (* the runs that end before training, and those that end after it with
     the condition of the final [if] false: nothing is uploaded *)
  1-9: split;
    [ split;
      [ intros Hex; exfalso; revert Hex; apply Hseq; repeat constructor
      | intros [(t & m & d & Hin) Hg]; first [ done | elem_inv Hin ] ]
    | intros _; apply Forall_forall; repeat constructor ].
  (* the runs in which the condition is true *)
  all: split; [|intros Hng; destruct (Hng Hgate)]; split; [|intros _].
  all: try (intros _; split; [|done]; exists t', m', d';
            repeat first [ apply elem_of_cons; left; reflexivity
                         | apply elem_of_cons; right ]).
  - exists t', (opening a config
                ++ [EFetchTokenizer (VStr (args_entity a)) name';
                    ENewModel m'; ENewDataModule d'] ++ logging
                ++ [ECudaDeviceCount; ENewTrainer t'; EFit t' m' d']),
      [EWandbExit None].
    reflexivity.
  - exists t', (opening a config
                ++ [EFetchTokenizer (VStr (args_entity a)) name';
                    ECudaIsAvailable; ENewModel m'; ENewDataModule d']
                ++ logging
                ++ [ECudaDeviceCount; ENewTrainer t'; EFit t' m' d']),
      [EWandbExit None].
    reflexivity.
Qed.

End Gate.

(** ** Two runs on the same inputs *)

Section TwoRuns.
Context {T : Type} `{!Tokenizer T} (lib : Lib) (w1 w2 : World T).
Implicit Types (config : gmap string value) (a : Args).

Lemma merged_config_ext a :
  fetch_config w1 = fetch_config w2 → merged_config w1 a = merged_config w2 a.
Proof. unfold merged_config. by intros ->. Qed.

Lemma choose_model_ext config tok :
  cuda_is_available w1 = cuda_is_available w2 →
  choose_model lib w1 config tok = choose_model lib w2 config tok.
Proof. unfold choose_model, choose_device. by intros ->. Qed.

Lemma properly_done_ext config :
  current_epoch w1 = current_epoch w2 →
  properly_done w1 config = properly_done w2 config.
Proof. unfold properly_done. by intros ->. Qed.

(** The two trainers are made by the same calls and differ at most in the
    number of CUDA devices. *)
Lemma make_trainer_forget config :
  forget_gpus_event <$> trace (make_trainer w1 config)
  = forget_gpus_event <$> trace (make_trainer w2 config)
  ∧ match outcome (make_trainer w1 config),
          outcome (make_trainer w2 config) with
    | Ok t1, Ok t2 => forget_gpus t1 = forget_gpus t2
    | Raise e1, Raise e2 => e1 = e2
    | _, _ => False
    end.
Proof. unfold make_trainer. run; by split. Qed.

Lemma save_and_upload_forget config t1 t2 :
  forget_gpus t1 = forget_gpus t2 →
  forget_gpus_event <$> trace (save_and_upload (T:=T) lib config t1)
  = forget_gpus_event <$> trace (save_and_upload (T:=T) lib config t2).
Proof.
  intros Ht. unfold save_and_upload. run; simpl; by rewrite Ht.
Qed.

Lemma save_and_upload_outcome config t1 t2 :
  outcome (save_and_upload (T:=T) lib config t1)
  = outcome (save_and_upload (T:=T) lib config t2).
Proof. unfold save_and_upload. run; reflexivity. Qed.

Lemma session_forget config :
  fetch_tokenizer w1 = fetch_tokenizer w2 →
  cuda_is_available w1 = cuda_is_available w2 →
  current_epoch w1 = current_epoch w2 →
  forget_gpus_event <$> trace (session lib w1 config)
  = forget_gpus_event <$> trace (session lib w2 config)
  ∧ outcome (session lib w1 config) = outcome (session lib w2 config).
Proof.
  intros Htok Hcuda Hepoch. unfold session, save_if_done.
  rewrite <- Htok, <- (properly_done_ext _ Hepoch).
  getitem_step; [|done]. getitem_step; [|done].
  rewrite !trace_emit_bind, !outcome_emit_bind. cbv beta.
  rewrite !trace_bind, !outcome_bind.
  rewrite <- (choose_model_ext _ _ Hcuda).
  rewrite !fmap_cons, !fmap_app.
  destruct (outcome (choose_model lib w1 config _)) as [m|]; [|done].
  rewrite !trace_bind, !outcome_bind, !fmap_app.
  destruct (outcome (choose_data lib config _)) as [d|]; [|done].
  rewrite !trace_bind, !outcome_bind, !fmap_app.
  destruct (make_trainer_forget config) as [-> Ht].
  destruct (outcome (make_trainer w1 config)) as [t1|e1],
    (outcome (make_trainer w2 config)) as [t2|e2]; try done;
    [|by rewrite Ht].
  rewrite !trace_emit_bind, !outcome_emit_bind. cbv beta.
  rewrite !trace_bind, !outcome_bind, !properly_done_trace.
  simpl. rewrite Ht.
  destruct (outcome (properly_done w1 config)) as [[]|]; try done.
  by rewrite (save_and_upload_forget _ _ _ Ht),
    (save_and_upload_outcome _ t1 t2).
Qed.

(** Two runs on the same inputs make the same calls, up to the number of
    CUDA devices handed to the trainer, and end the same way. *)
Lemma main_forget a :
  fetch_config w1 = fetch_config w2 →
  fetch_tokenizer w1 = fetch_tokenizer w2 →
  cuda_is_available w1 = cuda_is_available w2 →
  current_epoch w1 = current_epoch w2 →
  forget_gpus_event <$> trace (main lib w1 a)
  = forget_gpus_event <$> trace (main lib w2 a).
Proof.
  intros Hfetch Htok Hcuda Hepoch. unfold main.
  rewrite <- (merged_config_ext a Hfetch), !trace_bind.
  destruct (outcome (merged_config w1 a)) as [config|]; [|done].
  getitem_step; [|done]. unfold with_wandb_init. cbn [trace outcome].
  destruct (session_forget config Htok Hcuda Hepoch) as [Htr Hout].
  by rewrite !fmap_app, Htr, Hout.
Qed.

Lemma model_classes_forget (tr : list (event T)) :
  model_classes (forget_gpus_event <$> tr) = model_classes tr.
Proof.
  unfold model_classes.
  induction tr as [|[] tr IH]; csimpl; by rewrite ?IH.
Qed.

Lemma datamodule_classes_forget (tr : list (event T)) :
  datamodule_classes (forget_gpus_event <$> tr) = datamodule_classes tr.
Proof.
  unfold datamodule_classes.
  induction tr as [|[] tr IH]; csimpl; by rewrite ?IH.
Qed.

Lemma uploaded_forget (tr : list (event T)) :
  uploaded (forget_gpus_event <$> tr) = uploaded tr.
Proof.
  unfold uploaded. induction tr as [|[] tr IH]; csimpl; by rewrite ?IH.
Qed.

(** C7.  Two runs with the same command-line arguments, the same fetched
    configuration, the same tokenizer, the same CUDA availability and the
    same [trainer.current_epoch] construct models of the same classes and
    data modules of the same classes, and both upload or both do not. *)
Theorem same_inputs_same_decisions a :
  fetch_config w1 = fetch_config w2 →
  fetch_tokenizer w1 = fetch_tokenizer w2 →
  cuda_is_available w1 = cuda_is_available w2 →
  current_epoch w1 = current_epoch w2 →
  model_classes (trace (main lib w1 a))
  = model_classes (trace (main lib w2 a))
  ∧ datamodule_classes (trace (main lib w1 a))
    = datamodule_classes (trace (main lib w2 a))
  ∧ uploaded (trace (main lib w1 a)) = uploaded (trace (main lib w2 a)).
Proof.
  intros Hfetch Htok Hcuda Hepoch.
  pose proof (main_forget a Hfetch Htok Hcuda Hepoch) as Heq.
  rewrite <- (model_classes_forget (trace (main lib w1 a))).
  rewrite <- (datamodule_classes_forget (trace (main lib w1 a))).
  rewrite <- (uploaded_forget (trace (main lib w1 a))).
  rewrite Heq.
  by rewrite model_classes_forget, datamodule_classes_forget,
    uploaded_forget.
Qed.

End TwoRuns.

(** ** The sample installation, run *)

(** A fast development run that stops at the last epoch uploads nothing. *)
Lemma fast_dev_run_never_uploads_sample :
  Forall (λ e, is_upload e = false)
         (trace (main Sample.lib (Sample.world 0 9) Sample.fast_args)).
Proof.
  apply Forall_forall.
  apply (fast_dev_run_never_uploads Sample.lib (Sample.world 0 9)
           Sample.fast_args (Sample.config Sample.fast_args));
    reflexivity.
Defined.

(** The entry with the unknown data ends its run with [ValueError]. *)
Lemma value_error_stops_run_sample :
  (fs_literal (FString "Invalid data: " (VStr "jejueo")) = "Invalid model: "
   ∨ fs_literal (FString "Invalid data: " (VStr "jejueo")) = "Invalid data: ")
  ∧ ∀ e, e ∈ trace (main Sample.lib (Sample.world 0 9) Sample.jejueo_args) →
         is_fit e = false ∧ is_upload e = false.
Proof.
  apply (value_error_stops_run Sample.lib (Sample.world 0 9)
           Sample.jejueo_args).
  reflexivity.
Defined.

(** The model of the sample run is a [TransformerTorch] on the CPU. *)
Lemma device_only_for_torch_sample :
  (model_cls Sample.torch_model = TransformerTorch
   ∧ length (model_args Sample.torch_model) = 10%nat
   ∧ ∀ i d, model_args Sample.torch_model !! i = Some (ADevice d)
            ↔ i = 9%nat
              ∧ d = torch_device
                      (if cuda_is_available (Sample.world 0 9) then "cuda"
                       else "cpu"))
  ∨ (model_cls Sample.torch_model = TransformerScratch
     ∧ length (model_args Sample.torch_model) = 9%nat
     ∧ ∀ d, ADevice d ∉ model_args Sample.torch_model).
Proof.
  apply (device_only_for_torch Sample.lib (Sample.world 0 9)
           (default_args "me")).
  apply (list_elem_of_lookup_2 _ 4%nat). reflexivity.
Defined.

(** The sample run, up to [trainer.fit]. *)
Lemma training_order_sample :
  ∃ name cuda post,
    let tok := fetch_tokenizer (Sample.world 0 9) (VStr "me") name in
    Sample.config (default_args "me") !! "entity" = Some (VStr "me")
    ∧ Sample.config (default_args "me") !! "tokenizer" = Some name
    ∧ trace (main Sample.lib (Sample.world 0 9) (default_args "me"))
      = opening (default_args "me") (Sample.config (default_args "me"))
        ++ [EFetchTokenizer (VStr "me") name] ++ cuda
        ++ [ENewModel Sample.torch_model; ENewDataModule Sample.small_data]
        ++ logging
        ++ [ECudaDeviceCount; ENewTrainer Sample.the_trainer;
            EFit Sample.the_trainer Sample.torch_model Sample.small_data]
        ++ post
    ∧ (cuda = [] ∨ cuda = [ECudaIsAvailable])
    ∧ model_args Sample.torch_model !! 2%nat
      = Some (AVal (VInt (get_vocab_size tok)))
    ∧ model_args Sample.torch_model !! 4%nat
      = Some (AVal (VInt (pad_token_id tok)))
    ∧ dm_tokenizer Sample.small_data = tok
    ∧ dm_config Sample.small_data = Sample.config (default_args "me")
    ∧ Forall (λ e, is_upload e = true ∨ ∃ exc, e = EWandbExit exc) post.
Proof.
  apply (training_order Sample.lib (Sample.world 0 9) (default_args "me")).
  - reflexivity.
  - apply (list_elem_of_lookup_2 _ 10%nat). reflexivity.
Defined.

(** The sample run stops at epoch 9 of 10: what it does after
    [trainer.fit]. *)
Lemma upload_steps_in_order_sample :
  let a := default_args "me" in
  let config := Sample.config a in
  let t := Sample.the_trainer in
  let ckpt_path := os_path_join (ROOT_DIR Sample.lib) "transformer.ckpt" in
  let artifact := {| art_name := VStr (args_model a); art_type := "model";
                     art_metadata := config; art_files := [] |} in
  config !! "model" = Some (VStr (args_model a))
  ∧ config !! "ver" = Some (VStr (args_ver a))
  ∧ (ROOT_DIR Sample.lib ≠ EmptyString → ends_with_sep (ROOT_DIR Sample.lib) = false →
     ckpt_path = ROOT_DIR Sample.lib +:+ "/transformer.ckpt")
  ∧ art_files (add_file artifact ckpt_path) = [ckpt_path]
  ∧ outcome (main Sample.lib (Sample.world 0 9) a) = Ok tt
  ∧ ∃ pre,
      Forall (λ e, is_upload e = false) pre
      ∧ trace (main Sample.lib (Sample.world 0 9) a)
        = pre ++ [EFit t Sample.torch_model Sample.small_data;
                  ESaveCheckpoint t ckpt_path;
                  ENewArtifact artifact;
                  EAddFile artifact ckpt_path;
                  ELogArtifact (add_file artifact ckpt_path)
                    [VStr "latest"; VStr (args_ver a)];
                  ERemove ckpt_path;
                  EWandbExit None].
Proof.
  apply (upload_steps_in_order Sample.lib (Sample.world 0 9)
           (default_args "me") (Sample.config (default_args "me"))
           Sample.the_trainer Sample.torch_model Sample.small_data).
  - reflexivity.
  - apply (list_elem_of_lookup_2 _ 10%nat). reflexivity.
  - split; [reflexivity|]. exists (VInt 10), (VInt 9).
    split; [reflexivity|]. split; reflexivity.
Defined.

(** The sample run, stopped at epoch 9 of 10, uploads. *)
Lemma upload_iff_gate_sample :
  ((∃ t pre post,
      trace (main Sample.lib (Sample.world 0 9) (default_args "me"))
      = pre ++ upload_sequence Sample.lib (Sample.config (default_args "me"))
                 t (VStr "transformer_torch") (VStr "overfit") ++ post)
   ↔ (∃ t m d,
        EFit t m d
        ∈ trace (main Sample.lib (Sample.world 0 9) (default_args "me")))
     ∧ gate_holds (Sample.config (default_args "me")) 9)
  ∧ (¬ gate_holds (Sample.config (default_args "me")) 9 →
     ∀ e, e ∈ trace (main Sample.lib (Sample.world 0 9) (default_args "me")) →
          is_upload e = false).
Proof.
  apply (upload_iff_gate Sample.lib (Sample.world 0 9) (default_args "me")
           (Sample.config (default_args "me"))).
  reflexivity.
Defined.

(** One CUDA device or two: the same decisions. *)
Lemma same_inputs_same_decisions_sample :
  model_classes (trace (main Sample.lib (Sample.world 1 9) (default_args "me")))
  = model_classes
      (trace (main Sample.lib (Sample.world 2 9) (default_args "me")))
  ∧ datamodule_classes
      (trace (main Sample.lib (Sample.world 1 9) (default_args "me")))
    = datamodule_classes
        (trace (main Sample.lib (Sample.world 2 9) (default_args "me")))
  ∧ uploaded (trace (main Sample.lib (Sample.world 1 9) (default_args "me")))
    = uploaded
        (trace (main Sample.lib (Sample.world 2 9) (default_args "me"))).
Proof.
  apply (same_inputs_same_decisions Sample.lib (Sample.world 1 9)
           (Sample.world 2 9) (default_args "me"));
    reflexivity.
Defined.

(** ** Runs of the sample installation, evaluated *)

Example py_eq_int_float : py_eq (VInt 9) (VFloat 9.0%float) = true.
Proof. reflexivity. Qed.

Example py_eq_int_half : py_eq (VInt 9) (VFloat 9.5%float) = false.
Proof. reflexivity. Qed.

Example py_eq_bool_int : py_eq (VBool true) (VInt 1) = true.
Proof. reflexivity. Qed.

Example py_eq_str_int : py_eq (VStr "1") (VInt 1) = false.
Proof. reflexivity. Qed.

Example py_sub1_none :
  py_sub1 VNone
  = Raise (TypeError "unsupported operand type(s) for -: 'NoneType' and 'int'").
Proof. reflexivity. Qed.

Example os_path_join_dir :
  os_path_join "/home/user/enkorde" "transformer.ckpt"
  = "/home/user/enkorde/transformer.ckpt".
Proof. reflexivity. Qed.

Example os_path_join_root :
  os_path_join "/" "transformer.ckpt" = "/transformer.ckpt".
Proof. reflexivity. Qed.

Example os_path_join_empty :
  os_path_join EmptyString "transformer.ckpt" = "transformer.ckpt".
Proof. reflexivity. Qed.

(** Stopped at the last epoch, the run uploads and returns. *)
Example run_last_epoch :
  uploaded (trace (main Sample.lib (Sample.world 0 9) (default_args "me")))
  = true
  ∧ outcome (main Sample.lib (Sample.world 0 9) (default_args "me")) = Ok tt.
Proof. by vm_compute. Qed.

(** Stopped one epoch earlier, it trains and uploads nothing. *)
Example run_early_epoch :
  uploaded (trace (main Sample.lib (Sample.world 0 8) (default_args "me")))
  = false
  ∧ existsb is_fit
      (trace (main Sample.lib (Sample.world 0 8) (default_args "me")))
    = true
  ∧ outcome (main Sample.lib (Sample.world 0 8) (default_args "me")) = Ok tt.
Proof. by vm_compute. Qed.

(** A fast development run trains and uploads nothing. *)
Example run_fast_dev :
  uploaded (trace (main Sample.lib (Sample.world 0 9) Sample.fast_args))
  = false
  ∧ existsb is_fit
      (trace (main Sample.lib (Sample.world 0 9) Sample.fast_args))
    = true.
Proof. by vm_compute. Qed.

(** The unknown data module: the model was constructed, then the run is
    over. *)
Example run_unknown_data :
  outcome (main Sample.lib (Sample.world 0 9) Sample.jejueo_args)
  = Raise (ValueError (FString "Invalid data: " (VStr "jejueo")))
  ∧ model_classes
      (trace (main Sample.lib (Sample.world 0 9) Sample.jejueo_args))
    = [TransformerScratch]
  ∧ datamodule_classes
      (trace (main Sample.lib (Sample.world 0 9) Sample.jejueo_args))
    = []
  ∧ existsb is_fit
      (trace (main Sample.lib (Sample.world 0 9) Sample.jejueo_args))
    = false.
Proof. by vm_compute. Qed.

(** A version the fetched configuration does not have: [KeyError] before
    the wandb run is opened. *)
Example run_unknown_version :
  main Sample.lib (Sample.world 0 9)
    {| args_entity := "me"; args_model := "transformer_torch";
       args_ver := "v0"; args_num_workers := 4; args_log_every_n_steps := 1;
       args_fast_dev_run := false; args_overfit_batches := 0;
       args_check_val_every_n_epoch := 1 |}
  = Run [EFetchConfig] (Raise (KeyError "v0")).
Proof. by vm_compute. Qed.

(** ** The run, stage by stage *)

Section Stages.
Context {T : Type} `{!Tokenizer T} (lib : Lib) (w : World T).
Implicit Types (config : gmap string value) (a : Args) (tok : T).

(** The dispatches raise [KeyError] and [ValueError] only. *)
Lemma choose_model_exn config tok e :
  outcome (choose_model lib w config tok) = Raise e →
  (∃ k, e = KeyError k)
  ∨ ∃ name, config !! "model" = Some name
            ∧ py_eq name (VStr (TransformerTorch_name lib)) = false
            ∧ py_eq name (VStr (TransformerScratch_name lib)) = false
            ∧ e = ValueError (FString "Invalid model: " name).
Proof.
  unfold choose_model, choose_device, new_model.
  destruct (config !! "model") as [name|] eqn:Hname.
  2:{ rewrite (getitem_None _ _ Hname), bind_raise. intros [= <-]. eauto. }
  rewrite !(getitem_Some _ _ _ Hname), bind_ret.
  destruct (py_eq name (VStr (TransformerTorch_name lib))) eqn:H1.
  - rewrite outcome_bind; simpl.
    run; try discriminate; intros [= <-]; eauto.
  - rewrite bind_ret.
    destruct (py_eq name (VStr (TransformerScratch_name lib))) eqn:H2.
    + run; try discriminate; intros [= <-]; eauto.
    + rewrite bind_ret. intros [= <-]. right. by exists name.
Qed.

Lemma choose_data_exn config tok e :
  outcome (choose_data lib config tok) = Raise e →
  e = KeyError "data"
  ∨ ∃ name, config !! "data" = Some name
            ∧ e = ValueError (FString "Invalid data: " name).
Proof.
  unfold choose_data, new_datamodule.
  getitem_step; [|intros [= <-]; eauto].
  destruct (py_eq _ _); [|destruct (py_eq _ _)]; try discriminate.
  intros [= <-]. eauto.
Qed.

(** A trainer holds what the configuration holds, and the number of CUDA
    devices. *)
Lemma make_trainer_fields config t :
  outcome (make_trainer w config) = Ok t →
  config !! "fast_dev_run" = Some (tr_fast_dev_run t)
  ∧ config !! "check_val_every_n_epoch" = Some (tr_check_val_every_n_epoch t)
  ∧ config !! "overfit_batches" = Some (tr_overfit_batches t)
  ∧ config !! "max_epochs" = Some (tr_max_epochs t)
  ∧ config !! "log_every_n_steps" = Some (tr_log_every_n_steps t)
  ∧ tr_gpus t = cuda_device_count w
  ∧ tr_callbacks t = [LearningRateMonitor "epoch"]
  ∧ tr_enable_checkpointing t = false
  ∧ tr_logger t = WandbLogger false.
Proof.
  unfold make_trainer. run; try discriminate. intros [= <-]. by repeat split.
Qed.

(** How the final [if] statement ends. *)
Lemma save_if_done_outcome config t b name ver :
  config !! "fast_dev_run" = Some (VBool b) →
  config !! "model" = Some name →
  config !! "ver" = Some ver →
  outcome (save_if_done lib w config t)
  = if b then Ok tt
    else match config !! "max_epochs" with
         | None => Raise (KeyError "max_epochs")
         | Some v => match py_sub1 v with
                     | Ok _ => Ok tt
                     | Raise e => Raise e
                     end
         end.
Proof.
  intros Hfdr Hname Hver. unfold save_if_done, properly_done.
  rewrite (getitem_Some _ _ _ Hfdr), bind_ret. cbn [truthy].
  destruct b; [done|].
  destruct (config !! "max_epochs") as [v|] eqn:Hme.
  - rewrite (getitem_Some _ _ _ Hme), bind_ret, outcome_bind, outcome_bind.
    cbn [lift outcome]. destruct (py_sub1 v) as [last|e]; [|done].
    cbn [mret M_ret ret outcome].
    destruct (py_eq _ _); [|done].
    by rewrite (save_and_upload_spec lib _ _ _ _ Hname Hver).
  - by rewrite (getitem_None _ _ Hme), bind_raise.
Qed.

Ltac same_events H :=
  rewrite H; unfold opening, logging; simpl;
  rewrite ?app_nil_r, <- ?app_assoc; reflexivity.

(** Every run of [main], by the outcomes of its steps. *)
Lemma main_stages a :
  match outcome (merged_config w a) with
  | Raise e => main lib w a = Run [EFetchConfig] (Raise e)
  | Ok config =>
      match config !! "tokenizer" with
      | None =>
          main lib w a
          = Run (opening a config
                 ++ [EWandbExit (Some (KeyError "tokenizer"))])
                (Raise (KeyError "tokenizer"))
      | Some name =>
          let tok := fetch_tokenizer w (VStr (args_entity a)) name in
          let start :=
            opening a config
            ++ [EFetchTokenizer (VStr (args_entity a)) name]
            ++ trace (choose_model lib w config tok) in
          match outcome (choose_model lib w config tok) with
          | Raise e =>
              main lib w a = Run (start ++ [EWandbExit (Some e)]) (Raise e)
          | Ok m =>
              match outcome (choose_data lib config tok) with
              | Raise e =>
                  main lib w a
                  = Run (start ++ [EWandbExit (Some e)]) (Raise e)
              | Ok d =>
                  match outcome (make_trainer w config) with
                  | Raise e =>
                      main lib w a
                      = Run (start ++ [ENewDataModule d] ++ logging
                             ++ [EWandbExit (Some e)])
                            (Raise e)
                  | Ok t =>
                      main lib w a
                      = Run (start ++ [ENewDataModule d] ++ logging
                             ++ [ECudaDeviceCount; ENewTrainer t; EFit t m d]
                             ++ trace (save_if_done lib w config t)
                             ++ [EWandbExit
                                   (exception_of
                                      (outcome (save_if_done lib w config t)))])
                            (outcome (save_if_done lib w config t))
                  end
              end
          end
      end
  end.
Proof.
  destruct (outcome (merged_config w a)) as [config|e] eqn:Hm;
    [|by apply main_no_config].
  pose proof (main_session lib w a config Hm) as Hmain.
  assert (config !! "entity" = Some (VStr (args_entity a))) as He.
  { apply (merged_lookup w a); [done|]. set_solver. }
  revert Hmain. unfold session.
  rewrite (getitem_Some _ _ _ He), bind_ret.
  destruct (config !! "tokenizer") as [name|] eqn:Hname.
  2:{ rewrite (getitem_None _ _ Hname), bind_raise. by intros ->. }
  rewrite (getitem_Some _ _ _ Hname), bind_ret.
  rewrite trace_emit_bind, outcome_emit_bind, trace_bind, outcome_bind.
  cbv zeta.
  set (tok := fetch_tokenizer w (VStr (args_entity a)) name).
  destruct (outcome (choose_model lib w config tok)) as [m|e] eqn:HM;
    [|intros Hmain; same_events Hmain].
  rewrite trace_bind, outcome_bind.
  destruct (outcome (choose_data lib config tok)) as [d|e] eqn:HD.
  2:{ apply choose_data_Raise in HD as [Htr _]. rewrite Htr.
      intros Hmain. same_events Hmain. }
  apply choose_data_Ok in HD as (Htr & _). rewrite Htr. clear Htr.
  rewrite trace_bind, outcome_bind.
  destruct (outcome (make_trainer w config)) as [t|e] eqn:HT.
  2:{ apply make_trainer_Raise in HT as [Htr _]. rewrite Htr.
      intros Hmain. same_events Hmain. }
  apply make_trainer_Ok in HT as Htr. rewrite Htr. clear Htr.
  rewrite trace_emit_bind, outcome_emit_bind.
  intros Hmain. same_events Hmain.
Qed.

End Stages.

(** ** Runs that reach training *)

Section Reach.
Context {T : Type} `{!Tokenizer T} (lib : Lib) (w : World T).
Implicit Types (config : gmap string value) (a : Args) (tok : T).

(** The merged configuration comes from an entry of the fetched one. *)
Lemma merged_config_inv a config :
  outcome (merged_config w a) = Ok config →
  ∃ train by_ver c,
    fetch_config w !! "train" = Some train
    ∧ train !! args_model a = Some by_ver
    ∧ by_ver !! args_ver a = Some c
    ∧ config = dict_update c (vars a).
Proof.
  unfold merged_config. rewrite outcome_emit_bind.
  destruct (fetch_config w !! "train") as [train|] eqn:E1;
    [rewrite (getitem_Some _ _ _ E1), bind_ret
    |by rewrite (getitem_None _ _ E1), bind_raise].
  destruct (train !! args_model a) as [by_ver|] eqn:E2;
    [rewrite (getitem_Some _ _ _ E2), bind_ret
    |by rewrite (getitem_None _ _ E2), bind_raise].
  destruct (by_ver !! args_ver a) as [c|] eqn:E3;
    [rewrite (getitem_Some _ _ _ E3), bind_ret
    |by rewrite (getitem_None _ _ E3), bind_raise].
  intros [= <-]. by exists train, by_ver, c.
Qed.

(** The final [if] statement calls nothing but the steps of the
    save/upload/cleanup sequence. *)
Lemma save_if_done_uploads config t :
  Forall (λ e, is_upload e = true) (trace (save_if_done lib w config t)).
Proof.
  unfold save_if_done.
  rewrite trace_bind, properly_done_trace. cbn [app].
  destruct (outcome (properly_done w config)) as [[]|]; try constructor.
  unfold save_and_upload. run; repeat constructor.
Qed.

(** A run in which [trainer.fit] is called made its model, its data module
    and its trainer, and ends as the final [if] statement does. *)
Lemma main_fit_inv a config t m d :
  outcome (merged_config w a) = Ok config →
  EFit t m d ∈ trace (main lib w a) →
  ∃ name,
    config !! "tokenizer" = Some name
    ∧ outcome (choose_model lib w config
                 (fetch_tokenizer w (VStr (args_entity a)) name)) = Ok m
    ∧ outcome (choose_data lib config
                 (fetch_tokenizer w (VStr (args_entity a)) name)) = Ok d
    ∧ outcome (make_trainer w config) = Ok t
    ∧ outcome (main lib w a) = outcome (save_if_done lib w config t).
Proof.
  intros Hm. pose proof (main_stages lib w a) as Hst. rewrite Hm in Hst.
  destruct (config !! "tokenizer") as [name|] eqn:Hname.
  2:{ rewrite Hst. events. intros Hin. elem_inv Hin. }
  cbv zeta in Hst.
  set (tok := fetch_tokenizer w (VStr (args_entity a)) name) in *.
  destruct (outcome (choose_model lib w config tok)) as [m'|e] eqn:HM.
  2:{ rewrite Hst. apply choose_model_Raise in HM as [[->| ->] _];
        events; intros Hin; elem_inv Hin. }
  destruct (choose_model_built lib w _ _ _ HM) as (cuda & Hbuilt & Htr).
  rewrite Htr in Hst. apply built_model_cuda in Hbuilt.
  destruct (outcome (choose_data lib config tok)) as [d'|e] eqn:HD.
  2:{ rewrite Hst. destruct Hbuilt as [->| ->];
        events; intros Hin; elem_inv Hin. }
  destruct (outcome (make_trainer w config)) as [t'|e] eqn:HT.
  2:{ rewrite Hst. destruct Hbuilt as [->| ->];
        events; intros Hin; elem_inv Hin. }
  rewrite Hst. cbn [trace outcome]. intros Hin.
  assert (EFit t m d = EFit t' m' d') as [= -> -> ->].
  { pose proof (save_if_done_uploads config t') as Hup.
    rewrite Forall_forall in Hup.
    rewrite !elem_of_app in Hin.
    destruct Hin as [[Hin|[Hin|[Hin|Hin]]]|[Hin|[Hin|[Hin|[Hin|Hin]]]]].
    - unfold opening in Hin. elem_inv Hin.
    - elem_inv Hin.
    - destruct Hbuilt as [->| ->]; elem_inv Hin.
    - elem_inv Hin.
    - elem_inv Hin.
    - unfold logging in Hin. elem_inv Hin.
    - elem_inv Hin. done.
    - apply Hup in Hin. discriminate Hin.
    - elem_inv Hin. }
  by exists name.
Qed.

End Reach.

(** ** Missing entries *)

Section Missing.
Context {T : Type} `{!Tokenizer T} (lib : Lib) (w : World T).
Implicit Types (config : gmap string value) (a : Args) (tok : T).

(** X1.  When the fetched configuration has no entry
    [['train'][args.model][args.ver]], [main] raises [KeyError] with the
    first key that is missing, and has called nothing but [fetch_config]:
    the wandb run is not opened.  An unknown [--model] is such a
    [KeyError], not the [ValueError] of the model dispatch. *)
Theorem missing_entry_is_key_error a :
  (fetch_config w !! "train" = None →
   main lib w a = Run [EFetchConfig] (Raise (KeyError "train")))
  ∧ (∀ train,
       fetch_config w !! "train" = Some train →
       train !! args_model a = None →
       main lib w a = Run [EFetchConfig] (Raise (KeyError (args_model a))))
  ∧ (∀ train by_ver,
       fetch_config w !! "train" = Some train →
       train !! args_model a = Some by_ver →
       by_ver !! args_ver a = None →
       main lib w a = Run [EFetchConfig] (Raise (KeyError (args_ver a)))).
Proof.
  split; [|split].
  - intros E1. apply main_no_config. unfold merged_config.
    by rewrite outcome_emit_bind, (getitem_None _ _ E1), bind_raise.
  - intros train E1 E2. apply main_no_config. unfold merged_config.
    rewrite outcome_emit_bind, (getitem_Some _ _ _ E1), bind_ret.
    by rewrite (getitem_None _ _ E2), bind_raise.
  - intros train by_ver E1 E2 E3. apply main_no_config.
    unfold merged_config.
    rewrite outcome_emit_bind, (getitem_Some _ _ _ E1), bind_ret.
    rewrite (getitem_Some _ _ _ E2), bind_ret.
    by rewrite (getitem_None _ _ E3), bind_raise.
Qed.

(** X2.  When the merged configuration has no [tokenizer], the wandb run is
    opened and closed with [KeyError('tokenizer')], which [main] raises;
    nothing is fetched or constructed in between. *)
Theorem missing_tokenizer a config :
  outcome (merged_config w a) = Ok config →
  config !! "tokenizer" = None →
  main lib w a
  = Run [EFetchConfig;
         EWandbInit (VStr (args_entity a)) "enkorde" config;
         EWandbExit (Some (KeyError "tokenizer"))]
        (Raise (KeyError "tokenizer")).
Proof.
  intros Hm Htok. pose proof (main_stages lib w a) as Hst.
  by rewrite Hm, Htok in Hst.
Qed.

(** X3.  When [config['model']] names one of the two models and a
    hyperparameter is missing, the model dispatch raises [KeyError] with the
    first missing one, in the order hidden_size, ffn_size, max_length,
    heads, depth, dropout, lr, and constructs no model. *)
Theorem missing_hyperparameter config tok name k :
  config !! "model" = Some name →
  py_eq name (VStr (TransformerTorch_name lib)) = true
  ∨ py_eq name (VStr (TransformerScratch_name lib)) = true →
  first_missing config hyper_keys = Some k →
  outcome (choose_model lib w config tok) = Raise (KeyError k)
  ∧ count is_new_model (trace (choose_model lib w config tok)) = 0%nat.
Proof.
  intros Hname Hknown. unfold choose_model, choose_device, new_model.
  rewrite !(getitem_Some _ _ _ Hname), bind_ret.
  cbn [first_missing hyper_keys].
  destruct (py_eq name (VStr (TransformerTorch_name lib))) eqn:H1.
  - rewrite outcome_bind, trace_bind. cbn [outcome trace emit mbind M_bind
      bind mret M_ret ret app].
    run; try discriminate; by intros [= <-].
  - rewrite bind_ret. destruct Hknown as [|H2]; [done|]. rewrite H2.
    run; try discriminate; by intros [= <-].
Qed.

End Missing.

(** Membership in a list given element by element. *)
Ltac in_list :=
  repeat first [ apply elem_of_cons; left; reflexivity
               | apply elem_of_cons; right ].

(** ** The trainer and the end of a run *)

Section Training.
Context {T : Type} `{!Tokenizer T} (lib : Lib) (w : World T).
Implicit Types (config : gmap string value) (a : Args) (tok : T).

(** A trainer that was constructed is the one [fit] is called on. *)
Lemma trainer_then_fit a t :
  ENewTrainer t ∈ trace (main lib w a) →
  ∃ config m d,
    outcome (merged_config w a) = Ok config
    ∧ EFit t m d ∈ trace (main lib w a).
Proof.
  by_cases lib w a; rewrite Hmain; events; intros Hin.
  1-5: try cuda_cases; simpl in Hin; elem_inv Hin.
  all: assert (t = t') as ->
    by (cuda_cases; simpl in Hin; elem_inv Hin; congruence).
  all: exists config', m', d'; split; [done|].
  all: cuda_cases; simpl; in_list.
Qed.

(** [make_trainer] fails on the first key that is missing. *)
Lemma make_trainer_missing_max_epochs config e :
  is_Some (config !! "fast_dev_run") →
  is_Some (config !! "check_val_every_n_epoch") →
  is_Some (config !! "overfit_batches") →
  config !! "max_epochs" = None →
  outcome (make_trainer w config) = Raise e → e = KeyError "max_epochs".
Proof.
  intros [v1 H1] [v2 H2] [v3 H3] H4. unfold make_trainer.
  rewrite !outcome_emit_bind.
  rewrite (getitem_Some _ _ _ H1), bind_ret.
  rewrite (getitem_Some _ _ _ H2), bind_ret.
  rewrite (getitem_Some _ _ _ H3), bind_ret.
  rewrite (getitem_None _ _ H4), bind_raise. by intros [= <-].
Qed.

(** X4.  The trainer of a run is constructed from the command line and
    [max_epochs]: fast_dev_run, check_val_every_n_epoch, overfit_batches and
    log_every_n_steps are the command-line values, whatever the fetched
    entry holds for them; max_epochs is the one of the configuration; gpus
    is [torch.cuda.device_count()]; checkpointing is disabled; the logger is
    [WandbLogger(log_model=False)] and the one callback
    [LearningRateMonitor(logging_interval='epoch')]. *)
Theorem trainer_arguments a t :
  ENewTrainer t ∈ trace (main lib w a) →
  ∃ config,
    outcome (merged_config w a) = Ok config
    ∧ config !! "max_epochs" = Some (tr_max_epochs t)
    ∧ t = {| tr_fast_dev_run := VBool (args_fast_dev_run a);
             tr_check_val_every_n_epoch :=
               VInt (args_check_val_every_n_epoch a);
             tr_overfit_batches := VInt (args_overfit_batches a);
             tr_max_epochs := tr_max_epochs t;
             tr_log_every_n_steps := VInt (args_log_every_n_steps a);
             tr_gpus := cuda_device_count w;
             tr_callbacks := [LearningRateMonitor "epoch"];
             tr_enable_checkpointing := false;
             tr_logger := WandbLogger false |}.
Proof.
  intros Hin. apply trainer_then_fit in Hin as (config & m & d & Hm & Hin).
  destruct (main_fit_inv lib w a config t m d Hm Hin)
    as (name & _ & _ & _ & HT & _).
  apply make_trainer_fields in HT
    as (H1 & H2 & H3 & H4 & H5 & H6 & H7 & H8 & H9).
  exists config. split; [done|]. split; [done|].
  rewrite (merged_lookup w a config "fast_dev_run"
             (VBool (args_fast_dev_run a)) Hm) in H1 by in_list.
  rewrite (merged_lookup w a config "check_val_every_n_epoch"
             (VInt (args_check_val_every_n_epoch a)) Hm) in H2 by in_list.
  rewrite (merged_lookup w a config "overfit_batches"
             (VInt (args_overfit_batches a)) Hm) in H3 by in_list.
  rewrite (merged_lookup w a config "log_every_n_steps"
             (VInt (args_log_every_n_steps a)) Hm) in H5 by in_list.
  destruct t; simpl in *. congruence.
Qed.

(** X5.  When the merged configuration has no [max_epochs], no trainer is
    constructed and [trainer.fit] is not called; a run that got as far as
    constructing its data module ends with [KeyError('max_epochs')]. *)
Theorem missing_max_epochs a config :
  outcome (merged_config w a) = Ok config →
  config !! "max_epochs" = None →
  count is_new_trainer (trace (main lib w a)) = 0%nat
  ∧ count is_fit (trace (main lib w a)) = 0%nat
  ∧ (count is_new_datamodule (trace (main lib w a)) = 1%nat →
     outcome (main lib w a) = Raise (KeyError "max_epochs")).
Proof.
  intros Hm Hme. pose proof (main_stages lib w a) as Hst. rewrite Hm in Hst.
  destruct (config !! "tokenizer") as [name|] eqn:Hname.
  2:{ rewrite Hst. by events. }
  cbv zeta in Hst.
  set (tok := fetch_tokenizer w (VStr (args_entity a)) name) in *.
  destruct (outcome (choose_model lib w config tok)) as [m|e] eqn:HM.
  2:{ rewrite Hst. by apply choose_model_Raise in HM as [[->| ->] _]; events. }
  destruct (choose_model_built lib w _ _ _ HM) as (cuda & Hbuilt & Htr).
  rewrite Htr in Hst. apply built_model_cuda in Hbuilt.
  destruct (outcome (choose_data lib config tok)) as [d|e] eqn:HD.
  2:{ rewrite Hst. by destruct Hbuilt as [->| ->]; events. }
  destruct (outcome (make_trainer w config)) as [t|e] eqn:HT.
  { apply make_trainer_fields in HT as (_ & _ & _ & H4 & _). congruence. }
  apply make_trainer_missing_max_epochs in HT as ->; [| | | |done].
  - rewrite Hst. by destruct Hbuilt as [->| ->]; events.
  - exists (VBool (args_fast_dev_run a)).
    apply (merged_lookup w a); [done|in_list].
  - exists (VInt (args_check_val_every_n_epoch a)).
    apply (merged_lookup w a); [done|in_list].
  - exists (VInt (args_overfit_batches a)).
    apply (merged_lookup w a); [done|in_list].
Qed.

(** X6.  A run in which [trainer.fit] was called ends as the final [if]
    statement does: a fast development run returns; another run returns if
    [config['max_epochs'] - 1] is defined, and raises the [TypeError] of the
    subtraction if [max_epochs] is a string or [None]. *)
Theorem outcome_after_training a config t m d :
  outcome (merged_config w a) = Ok config →
  EFit t m d ∈ trace (main lib w a) →
  config !! "max_epochs" = Some (tr_max_epochs t)
  ∧ outcome (main lib w a)
    = if args_fast_dev_run a then Ok tt
      else match py_sub1 (tr_max_epochs t) with
           | Ok _ => Ok tt
           | Raise e => Raise e
           end.
Proof.
  intros Hm Hin.
  destruct (main_fit_inv lib w a config t m d Hm Hin)
    as (name & _ & _ & _ & HT & ->).
  apply make_trainer_fields in HT as (_ & _ & _ & Hme & _).
  split; [done|].
  rewrite (save_if_done_outcome lib w config t (args_fast_dev_run a)
             (VStr (args_model a)) (VStr (args_ver a))).
  - by rewrite Hme.
  - apply (merged_lookup w a); [done|in_list].
  - apply (merged_lookup w a); [done|in_list].
  - apply (merged_lookup w a); [done|in_list].
Qed.


End Training.

(** ** What every run does and does not *)

Section Every.
Context {T : Type} `{!Tokenizer T} (lib : Lib) (w : World T).
Implicit Types (config : gmap string value) (a : Args) (tok : T).

Lemma count_app (kind : event T → bool) (l1 l2 : list (event T)) :
  count kind (l1 ++ l2) = (count kind l1 + count kind l2)%nat.
Proof. unfold count. by rewrite List.filter_app, length_app. Qed.

Lemma count_uploads (kind : event T → bool) (l : list (event T)) :
  (∀ e, is_upload e = true → kind e = false) →
  Forall (λ e, is_upload e = true) l → count kind l = 0%nat.
Proof.
  intros Hkind. unfold count. induction 1 as [|e l He _ IH]; [done|].
  simpl. by rewrite (Hkind e He).
Qed.

(** X8.  The model is dispatched before the data: a run that ends with
    the [ValueError] of the model dispatch has fetched the tokenizer and
    constructed nothing; one that ends with the [ValueError] of the data
    dispatch has already constructed its model, and no data module. *)
Theorem value_error_after_construction a msg :
  outcome (main lib w a) = Raise (ValueError msg) →
  count is_fetch_tokenizer (trace (main lib w a)) = 1%nat
  ∧ count is_new_datamodule (trace (main lib w a)) = 0%nat
  ∧ (fs_literal msg = "Invalid model: "
     ∧ count is_new_model (trace (main lib w a)) = 0%nat
     ∨ fs_literal msg = "Invalid data: "
       ∧ count is_new_model (trace (main lib w a)) = 1%nat).
Proof.
  by_cases lib w a; rewrite Hmain; cbn [outcome]; intros Hout;
    try discriminate Hout.
  - injection Hout as ->.
    cuda_cases; events; (split; [done|split; [done|]]); left;
      split; by try apply Hmsg.
  - injection Hout as ->.
    cuda_cases; events; (split; [done|split; [done|]]); right;
      split; by try apply Hmsg.
  - by destruct (Ho msg).
Qed.

(** X9.  [main] returns only after it has called [trainer.fit], and a run
    that saved or uploaded anything returns. *)
Theorem returns_only_after_training a :
  (outcome (main lib w a) = Ok tt →
   count is_fit (trace (main lib w a)) = 1%nat)
  ∧ (uploaded (trace (main lib w a)) = true →
     outcome (main lib w a) = Ok tt).
Proof.
  by_cases lib w a; rewrite Hmain; try cuda_cases; events; by split.
Qed.

(** X10.  In every run each step is taken at most once, and only if the
    step before it was taken: [fit] is called only on a constructed
    trainer, the trainer is constructed only after the data module, the
    data module only after the model, the model only after the tokenizer
    was fetched, and the tokenizer is fetched at most once. *)
Theorem steps_in_a_chain a :
  (count is_fit (trace (main lib w a))
   ≤ count is_new_trainer (trace (main lib w a)))%nat
  ∧ (count is_new_trainer (trace (main lib w a))
     ≤ count is_new_datamodule (trace (main lib w a)))%nat
  ∧ (count is_new_datamodule (trace (main lib w a))
     ≤ count is_new_model (trace (main lib w a)))%nat
  ∧ (count is_new_model (trace (main lib w a))
     ≤ count is_fetch_tokenizer (trace (main lib w a)))%nat
  ∧ (count is_fetch_tokenizer (trace (main lib w a)) ≤ 1)%nat.
Proof.
  by_cases lib w a; rewrite Hmain; try cuda_cases; events;
    unfold count; simpl; repeat split; lia.
Qed.

(** X11.  Every data module a run constructs receives the merged
    configuration, the one [wandb.init] was given, and with it
    the [num_workers] of the command line; and it receives the tokenizer
    fetched by [(config['entity'], config['tokenizer'])]. *)
Theorem datamodule_arguments a d :
  ENewDataModule d ∈ trace (main lib w a) →
  ∃ name,
    outcome (merged_config w a) = Ok (dm_config d)
    ∧ EWandbInit (VStr (args_entity a)) "enkorde" (dm_config d)
      ∈ trace (main lib w a)
    ∧ dm_config d !! "num_workers" = Some (VInt (args_num_workers a))
    ∧ dm_config d !! "tokenizer" = Some name
    ∧ dm_tokenizer d = fetch_tokenizer w (VStr (args_entity a)) name.
Proof.
  by_cases lib w a; rewrite Hmain; events; intros Hin.
  1-4: try cuda_cases; simpl in Hin; elem_inv Hin.
  all: assert (d = d') as ->
    by (cuda_cases; simpl in Hin; elem_inv Hin; congruence).
  all: exists name'; rewrite Hdc.
  all: split; [done|split; [in_list|]].
  all: split; [apply (merged_lookup w a); [done|in_list]|done].
Qed.

(** X12.  A run that fetched its configuration opens the wandb run as its
    second call and closes it as its last call, with the exception [main]
    raises, if any; it opens and closes it once.  A run that could not
    fetch its configuration does not open it. *)
Theorem wandb_run_is_closed a :
  (∃ k, main lib w a = Run [EFetchConfig] (Raise (KeyError k)))
  ∨ ∃ config,
      outcome (merged_config w a) = Ok config
      ∧ take 2 (trace (main lib w a)) = opening a config
      ∧ last (trace (main lib w a))
        = Some (EWandbExit (exception_of (outcome (main lib w a))))
      ∧ count is_wandb (trace (main lib w a)) = 2%nat.
Proof.
  by_cases lib w a; [left; by exists k'|right; exists config'..].
  all: rewrite Hmain; try cuda_cases; events; done.
Qed.

(** X13.  The [ValueError] of the model dispatch is raised only when the
    fetched configuration has an entry for [args.model] and [args.model] is
    the name of neither model; its message carries [args.model]. *)
Theorem invalid_model_needs_entry a msg :
  outcome (main lib w a) = Raise (ValueError msg) →
  fs_literal msg = "Invalid model: " →
  msg = FString "Invalid model: " (VStr (args_model a))
  ∧ args_model a ≠ TransformerTorch_name lib
  ∧ args_model a ≠ TransformerScratch_name lib
  ∧ ∃ train by_ver,
      fetch_config w !! "train" = Some train
      ∧ train !! args_model a = Some by_ver
      ∧ is_Some (by_ver !! args_ver a).
Proof.
  intros Hout Hlit. revert Hout. pose proof (main_stages lib w a) as Hst.
  destruct (outcome (merged_config w a)) as [config|e] eqn:Hm.
  2:{ rewrite Hst. cbn [outcome]. intros [= ->].
      destruct (merged_config_outcome w a) as [[k Hk]|[c Hc]]; congruence. }
  destruct (config !! "tokenizer") as [name|] eqn:Hname; [|by rewrite Hst].
  cbv zeta in Hst.
  set (tok := fetch_tokenizer w (VStr (args_entity a)) name) in *.
  assert (config !! "model" = Some (VStr (args_model a))) as Hmodel
    by (apply (merged_lookup w a); [done|in_list]).
  destruct (outcome (choose_model lib w config tok)) as [m|e] eqn:HM.
  - destruct (outcome (choose_data lib config tok)) as [d|e] eqn:HD.
    + destruct (outcome (make_trainer w config)) as [t|e] eqn:HT.
      * rewrite Hst. cbn [outcome].
        rewrite (save_if_done_outcome lib w config t (args_fast_dev_run a)
                   (VStr (args_model a)) (VStr (args_ver a)));
          [|apply (merged_lookup w a); [done|in_list]|done
           |apply (merged_lookup w a); [done|in_list]].
        destruct (args_fast_dev_run a); [done|].
        destruct (config !! "max_epochs") as [[]|]; simpl; discriminate.
      * rewrite Hst. cbn [outcome]. intros [= ->].
        apply make_trainer_Raise in HT as [_ [k [=]]].
    + rewrite Hst. cbn [outcome]. intros [= ->].
      apply choose_data_exn in HD as [[=]|(v & _ & [= ->])].
      discriminate Hlit.
  - rewrite Hst. cbn [outcome]. intros [= ->].
    apply choose_model_exn in HM as [[k [=]]|(v & Hv & H1 & H2 & [= ->])].
    rewrite Hmodel in Hv. injection Hv as <-.
    split; [done|].
    split; [intros Heq; by rewrite Heq, (proj2 (py_eq_VStr _ _)) in H1|].
    split; [intros Heq; by rewrite Heq, (proj2 (py_eq_VStr _ _)) in H2|].
    apply merged_config_inv in Hm as (train & by_ver & c & E1 & E2 & E3 & _).
    by exists train, by_ver.
Qed.

Lemma choose_model_cuda_questions config tok :
  count is_cuda_question (trace (choose_model lib w config tok))
  = match config !! "model" with
    | Some name =>
        if py_eq name (VStr (TransformerTorch_name lib)) then 1%nat else 0%nat
    | None => 0%nat
    end.
Proof.
  unfold choose_model, choose_device, new_model.
  destruct (config !! "model") as [name|] eqn:Hname.
  2:{ by rewrite (getitem_None _ _ Hname), bind_raise. }
  rewrite !(getitem_Some _ _ _ Hname), bind_ret.
  destruct (py_eq name (VStr (TransformerTorch_name lib))) eqn:H1.
  - rewrite trace_bind. cbn [outcome trace emit mbind M_bind bind mret
      M_ret ret app].
    run; reflexivity.
  - rewrite bind_ret.
    destruct (py_eq name (VStr (TransformerScratch_name lib))) eqn:H2.
    + run; reflexivity.
    + by rewrite bind_ret.
Qed.

(** X14.  [torch.cuda.is_available()] is asked once in a run that fetched
    its tokenizer and whose [--model] is [TransformerTorch.name], and never
    in any other run: not for [TransformerScratch], whatever happens
    later in the run. *)
Theorem cuda_question_on_torch_only a :
  count is_cuda_question (trace (main lib w a))
  = match outcome (merged_config w a) with
    | Ok config =>
        match config !! "tokenizer" with
        | Some _ =>
            if String.eqb (args_model a) (TransformerTorch_name lib)
            then 1%nat else 0%nat
        | None => 0%nat
        end
    | Raise _ => 0%nat
    end.
Proof.
  pose proof (main_stages lib w a) as Hst.
  destruct (outcome (merged_config w a)) as [config|e] eqn:Hm;
    [|by rewrite Hst].
  destruct (config !! "tokenizer") as [name|] eqn:Hname; [|by rewrite Hst].
  cbv zeta in Hst.
  set (tok := fetch_tokenizer w (VStr (args_entity a)) name) in *.
  assert (config !! "model" = Some (VStr (args_model a))) as Hmodel
    by (apply (merged_lookup w a); [done|in_list]).
  pose proof (choose_model_cuda_questions config tok) as Hq.
  rewrite Hmodel in Hq. cbn [py_eq] in Hq.
  pose proof (count_uploads is_cuda_question) as Hup.
  destruct (outcome (choose_model lib w config tok)) as [m|e];
    [destruct (outcome (choose_data lib config tok)) as [d|e];
     [destruct (outcome (make_trainer w config)) as [t|e]|]|].
  all: rewrite Hst; cbn [trace]; rewrite !count_app, Hq.
  1: rewrite (Hup (trace (save_if_done lib w config t)));
    [|by intros []|apply save_if_done_uploads].
  all: unfold opening, logging, count; simpl; lia.
Qed.

(** X15.  A run removes no file but the checkpoint it has saved and added
    to the artifact it has logged: [os.remove] is called on
    [os.path.join(ROOT_DIR, 'transformer.ckpt')] only, and only in a run
    that returns. *)
Theorem removes_only_the_uploaded_checkpoint a path :
  ERemove path ∈ trace (main lib w a) →
  path = os_path_join (ROOT_DIR lib) "transformer.ckpt"
  ∧ outcome (main lib w a) = Ok tt
  ∧ ∃ t artifact aliases pre post,
      art_files artifact = [path]
      ∧ trace (main lib w a)
        = pre ++ [ESaveCheckpoint t path] ++ post
          ++ [ELogArtifact artifact aliases; ERemove path; EWandbExit None]
      ∧ Forall (λ e, ∀ p, e ≠ ERemove p) (pre ++ post).
Proof.
  by_cases lib w a; rewrite Hmain; events; intros Hin.
  1-6: try cuda_cases; simpl in Hin; elem_inv Hin.
  assert (path = os_path_join (ROOT_DIR lib) "transformer.ckpt") as ->
    by (cuda_cases; simpl in Hin; elem_inv Hin; congruence).
  split; [done|]. split; [done|].
  eexists t', _, _,
    (opening a config'
     ++ [EFetchTokenizer (VStr (args_entity a)) name'] ++ cuda'
     ++ [ENewModel m'; ENewDataModule d'] ++ logging
     ++ [ECudaDeviceCount; ENewTrainer t'; EFit t' m' d']),
    [_; _].
  split; [|split].
  2:{ rewrite <- !app_assoc. simpl. reflexivity. }
  - reflexivity.
  - cuda_cases; events; repeat constructor; discriminate.
Qed.

End Every.

(** ** The two installations, run further *)

(** An unknown version is a [KeyError] before the wandb run is opened. *)
Lemma missing_entry_is_key_error_sample :
  main Sample.lib (Faulty.world 0 9) (Faulty.args "transformer_torch" "v0" false)
  = Run [EFetchConfig] (Raise (KeyError "v0")).
Proof.
  eapply (proj2 (proj2 (missing_entry_is_key_error Sample.lib
                          (Faulty.world 0 9)
                          (Faulty.args "transformer_torch" "v0" false))));
    reflexivity.
Defined.

Lemma missing_tokenizer_sample :
  main Sample.lib (Faulty.world 0 9)
    (Faulty.args "transformer_torch" "no_tokenizer" false)
  = Run [EFetchConfig;
         EWandbInit (VStr "me") "enkorde"
           (dict_update (delete "tokenizer" Sample.overfit)
              (vars (Faulty.args "transformer_torch" "no_tokenizer" false)));
         EWandbExit (Some (KeyError "tokenizer"))]
        (Raise (KeyError "tokenizer")).
Proof.
  apply (missing_tokenizer Sample.lib (Faulty.world 0 9)
           (Faulty.args "transformer_torch" "no_tokenizer" false));
    reflexivity.
Defined.

Lemma missing_hyperparameter_sample :
  outcome (choose_model Sample.lib (Faulty.world 0 9)
             (dict_update (delete "depth" Sample.overfit)
                (vars (Faulty.args "transformer_torch" "no_depth" false)))
             Sample.wp)
  = Raise (KeyError "depth")
  ∧ count is_new_model
      (trace (choose_model Sample.lib (Faulty.world 0 9)
                (dict_update (delete "depth" Sample.overfit)
                   (vars (Faulty.args "transformer_torch" "no_depth" false)))
                Sample.wp))
    = 0%nat.
Proof.
  apply (missing_hyperparameter Sample.lib (Faulty.world 0 9) _ Sample.wp
           (VStr "transformer_torch")).
  - reflexivity.
  - left. reflexivity.
  - reflexivity.
Defined.

Lemma trainer_arguments_sample :
  ∃ config,
    outcome (merged_config (Sample.world 0 9) (default_args "me")) = Ok config
    ∧ config !! "max_epochs" = Some (tr_max_epochs Sample.the_trainer)
    ∧ Sample.the_trainer
      = {| tr_fast_dev_run := VBool false;
           tr_check_val_every_n_epoch := VInt 1;
           tr_overfit_batches := VInt 0;
           tr_max_epochs := tr_max_epochs Sample.the_trainer;
           tr_log_every_n_steps := VInt 1;
           tr_gpus := cuda_device_count (Sample.world 0 9);
           tr_callbacks := [LearningRateMonitor "epoch"];
           tr_enable_checkpointing := false;
           tr_logger := WandbLogger false |}.
Proof.
  apply (trainer_arguments Sample.lib (Sample.world 0 9) (default_args "me")
           Sample.the_trainer).
  apply (list_elem_of_lookup_2 _ 9%nat). reflexivity.
Defined.

Lemma missing_max_epochs_sample :
  count is_new_trainer
    (trace (main Sample.lib (Faulty.world 0 9)
              (Faulty.args "transformer_torch" "no_epochs" false)))
  = 0%nat
  ∧ count is_fit
      (trace (main Sample.lib (Faulty.world 0 9)
                (Faulty.args "transformer_torch" "no_epochs" false)))
    = 0%nat
  ∧ (count is_new_datamodule
       (trace (main Sample.lib (Faulty.world 0 9)
                 (Faulty.args "transformer_torch" "no_epochs" false)))
     = 1%nat →
     outcome (main Sample.lib (Faulty.world 0 9)
                (Faulty.args "transformer_torch" "no_epochs" false))
     = Raise (KeyError "max_epochs")).
Proof.
  apply (missing_max_epochs Sample.lib (Faulty.world 0 9)
           (Faulty.args "transformer_torch" "no_epochs" false)
           (dict_update (delete "max_epochs" Sample.overfit)
              (vars (Faulty.args "transformer_torch" "no_epochs" false))));
    reflexivity.
Defined.

Lemma outcome_after_training_sample :
  Sample.config (default_args "me") !! "max_epochs"
  = Some (tr_max_epochs Sample.the_trainer)
  ∧ outcome (main Sample.lib (Sample.world 0 9) (default_args "me"))
    = if args_fast_dev_run (default_args "me") then Ok tt
      else match py_sub1 (tr_max_epochs Sample.the_trainer) with
           | Ok _ => Ok tt
           | Raise e => Raise e
           end.
Proof.
  apply (outcome_after_training Sample.lib (Sample.world 0 9)
           (default_args "me") (Sample.config (default_args "me"))
           Sample.the_trainer Sample.torch_model Sample.small_data).
  - reflexivity.
  - apply (list_elem_of_lookup_2 _ 10%nat). reflexivity.
Defined.


Lemma value_error_after_construction_sample :
  count is_fetch_tokenizer
    (trace (main Sample.lib (Sample.world 0 9) Sample.jejueo_args))
  = 1%nat
  ∧ count is_new_datamodule
      (trace (main Sample.lib (Sample.world 0 9) Sample.jejueo_args))
    = 0%nat
  ∧ (fs_literal (FString "Invalid data: " (VStr "jejueo")) = "Invalid model: "
     ∧ count is_new_model
         (trace (main Sample.lib (Sample.world 0 9) Sample.jejueo_args))
       = 0%nat
     ∨ fs_literal (FString "Invalid data: " (VStr "jejueo")) = "Invalid data: "
       ∧ count is_new_model
           (trace (main Sample.lib (Sample.world 0 9) Sample.jejueo_args))
         = 1%nat).
Proof.
  apply (value_error_after_construction Sample.lib (Sample.world 0 9)
           Sample.jejueo_args).
  reflexivity.
Defined.

Lemma datamodule_arguments_sample :
  ∃ name,
    outcome (merged_config (Sample.world 0 9) (default_args "me"))
    = Ok (dm_config Sample.small_data)
    ∧ EWandbInit (VStr "me") "enkorde" (dm_config Sample.small_data)
      ∈ trace (main Sample.lib (Sample.world 0 9) (default_args "me"))
    ∧ dm_config Sample.small_data !! "num_workers" = Some (VInt 4)
    ∧ dm_config Sample.small_data !! "tokenizer" = Some name
    ∧ dm_tokenizer Sample.small_data
      = fetch_tokenizer (Sample.world 0 9) (VStr "me") name.
Proof.
  apply (datamodule_arguments Sample.lib (Sample.world 0 9)
           (default_args "me") Sample.small_data).
  apply (list_elem_of_lookup_2 _ 5%nat). reflexivity.
Defined.

(** An entry for a model that does not exist: the [ValueError] of the
    model dispatch. *)
Lemma invalid_model_needs_entry_sample :
  FString "Invalid model: " (VStr "lstm")
  = FString "Invalid model: "
      (VStr (args_model (Faulty.args "lstm" "overfit" false)))
  ∧ args_model (Faulty.args "lstm" "overfit" false)
    ≠ TransformerTorch_name Sample.lib
  ∧ args_model (Faulty.args "lstm" "overfit" false)
    ≠ TransformerScratch_name Sample.lib
  ∧ ∃ train by_ver,
      fetch_config (Faulty.world 0 9) !! "train" = Some train
      ∧ train !! args_model (Faulty.args "lstm" "overfit" false)
        = Some by_ver
      ∧ is_Some (by_ver !! args_ver (Faulty.args "lstm" "overfit" false)).
Proof.
  apply (invalid_model_needs_entry Sample.lib (Faulty.world 0 9)
           (Faulty.args "lstm" "overfit" false)
           (FString "Invalid model: " (VStr "lstm")));
    reflexivity.
Defined.

Lemma removes_only_the_uploaded_checkpoint_sample :
  "/home/user/enkorde/transformer.ckpt"
  = os_path_join (ROOT_DIR Sample.lib) "transformer.ckpt"
  ∧ outcome (main Sample.lib (Sample.world 0 9) (default_args "me")) = Ok tt
  ∧ ∃ t artifact aliases pre post,
      art_files artifact = ["/home/user/enkorde/transformer.ckpt"]
      ∧ trace (main Sample.lib (Sample.world 0 9) (default_args "me"))
        = pre ++ [ESaveCheckpoint t "/home/user/enkorde/transformer.ckpt"]
          ++ post
          ++ [ELogArtifact artifact aliases;
              ERemove "/home/user/enkorde/transformer.ckpt";
              EWandbExit None]
      ∧ Forall (λ e, ∀ p, e ≠ ERemove p) (pre ++ post).
Proof.
  apply (removes_only_the_uploaded_checkpoint Sample.lib (Sample.world 0 9)
           (default_args "me")).
  apply (list_elem_of_lookup_2 _ 15%nat). reflexivity.
Defined.
